(** * databento.common.validation: parameter validation

    A shallow embedding of [databento/common/validation.py] and of the parts
    of the Python standard library it calls: [enum.Enum] lookup and
    iteration, [str], [repr] and f-string formatting, and
    [urllib.parse.urlsplit] and [urllib.parse.urlunsplit] as the
    interpreter's [enum.py] and [urllib/parse.py] have them (CPython 3.11,
    where [urlsplit] checks a bracketed network location with
    [_check_bracketed_netloc], and where an [int] of more than 4300 digits
    is not converted to text).  The properties of the three validators
    follow the definitions.

    Python text is a Rocq [string], one [ascii] per character (code points
    below 256).  Every character the validators inspect is an ASCII one.
    Exceptions are values: a computation returns [Ok v] or [Raise e]. *)

From Stdlib Require Import String Ascii List Bool Arith ZArith DecimalString.
Import ListNotations.
Local Open Scope list_scope.
Local Open Scope string_scope.

(* ================================================================== *)
(** ** Exceptions and results *)

(** [ValueError(msg)], raised bare or as [raise ValueError(msg) from cause]. *)
Inductive exn : Type :=
| ValueError (msg : string)
| ValueErrorFrom (msg : string) (cause : exn).

(** [str(exc)]. *)
Definition exn_msg (e : exn) : string :=
  match e with
  | ValueError m => m
  | ValueErrorFrom m _ => m
  end.

Inductive result (A : Type) : Type :=
| Ok (a : A)
| Raise (e : exn).
Arguments Ok {A} a.
Arguments Raise {A} e.

Definition bind {A B} (r : result A) (k : A -> result B) : result B :=
  match r with
  | Ok a => k a
  | Raise e => Raise e
  end.

Notation "x <- r ;; k" := (bind r (fun x => k))
  (at level 61, r at next level, right associativity).
Notation "' p <- r ;; k" := (bind r (fun x => match x with p => k end))
  (at level 61, p pattern, r at next level, right associativity).
Notation "r ;;; k" := (bind r (fun _ => k))
  (at level 61, right associativity).

Definition raises {A} (r : result A) : Prop := exists e, r = Raise e.

(* ================================================================== *)
(** ** Python [str] operations *)

Module Str.

(** [c in s] for a one-character [c]. *)
Fixpoint has (c : ascii) (s : string) : bool :=
  match s with
  | "" => false
  | String a t => Ascii.eqb a c || has c t
  end.

(** [all(p(ch) for ch in s)]. *)
Fixpoint all (p : ascii -> bool) (s : string) : bool :=
  match s with
  | "" => true
  | String a t => p a && all p t
  end.

(** [s.replace(b, "")] for a one-character [b]. *)
Fixpoint remove (b : ascii) (s : string) : string :=
  match s with
  | "" => ""
  | String a t => if Ascii.eqb a b then remove b t else String a (remove b t)
  end.

(** [s.lstrip(chars)]. *)
Fixpoint lstrip (chars : string) (s : string) : string :=
  match s with
  | "" => ""
  | String a t => if has a chars then lstrip chars t else s
  end.

(** [s[n:]]. *)
Fixpoint drop (n : nat) (s : string) : string :=
  match n, s with
  | O, _ => s
  | S n', String _ t => drop n' t
  | S _, "" => ""
  end.

(** [s[:n]]. *)
Fixpoint take (n : nat) (s : string) : string :=
  match n, s with
  | O, _ => ""
  | S n', String a t => String a (take n' t)
  | S _, "" => ""
  end.

(** With [i = s.find(c)]: [None] when [i = -1], else [(s[:i], s[i+1:])].
    This is also [s.split(c, 1)] when [c in s]. *)
Fixpoint cut (c : ascii) (s : string) : option (string * string) :=
  match s with
  | "" => None
  | String a t =>
      if Ascii.eqb a c then Some ("", t)
      else match cut c t with
           | Some (l, r) => Some (String a l, r)
           | None => None
           end
  end.

(** With [d] the least index of a character of [stops] in [s] (or [len(s)]
    when there is none): [(s[:d], s[d:])]. *)
Fixpoint span (stops : string) (s : string) : string * string :=
  match s with
  | "" => ("", "")
  | String a t =>
      if has a stops then ("", s)
      else let (l, r) := span stops t in (String a l, r)
  end.

(** [s.partition(c)[0]] and [s.partition(c)[2]]. *)
Definition partition_head (c : ascii) (s : string) : string :=
  match cut c s with Some (l, _) => l | None => s end.
Definition partition_tail (c : ascii) (s : string) : string :=
  match cut c s with Some (_, r) => r | None => "" end.

(** [s.rpartition(c)[2]]: what follows the last [c], or [s] when it has
    none. *)
Fixpoint rpartition_tail (c : ascii) (s : string) : string :=
  match s with
  | "" => ""
  | String a t =>
      if has c t then rpartition_tail c t
      else if Ascii.eqb a c then t else s
  end.

Definition is_upper (a : ascii) : bool :=
  let n := nat_of_ascii a in (65 <=? n)%nat && (n <=? 90)%nat.
Definition is_lower (a : ascii) : bool :=
  let n := nat_of_ascii a in (97 <=? n)%nat && (n <=? 122)%nat.
Definition is_digit (a : ascii) : bool :=
  let n := nat_of_ascii a in (48 <=? n)%nat && (n <=? 57)%nat.

(** [ch.isascii() and ch.isalpha()]. *)
Definition is_ascii_alpha (a : ascii) : bool := is_upper a || is_lower a.

(** [s.isascii()]. *)
Definition isascii (s : string) : bool :=
  all (fun a => (nat_of_ascii a <? 128)%nat) s.

Definition lower_char (a : ascii) : ascii :=
  if is_upper a then ascii_of_nat (nat_of_ascii a + 32) else a.

(** [s.lower()], on ASCII text. *)
Fixpoint lower (s : string) : string :=
  match s with
  | "" => ""
  | String a t => String (lower_char a) (lower t)
  end.

(** [bool(s)]: a string is true when it is not empty. *)
Definition truthy (s : string) : bool :=
  match s with "" => false | _ => true end.

(** [s.startswith(p)]. *)
Definition startswith (p s : string) : bool := String.prefix p s.

(** [needle in hay]. *)
Fixpoint infixb (needle hay : string) : bool :=
  String.prefix needle hay ||
  match hay with
  | "" => false
  | String _ t => infixb needle t
  end.

End Str.

(** The message [hay] includes the text [needle]. *)
Definition includes (needle hay : string) : Prop :=
  exists pre suf, hay = pre ++ needle ++ suf.

(* ================================================================== *)
(** ** urllib.parse *)

Record SplitResult : Type := mkSplitResult {
  scheme : string;
  netloc : string;
  path : string;
  query : string;
  fragment : string
}.

Definition scheme_chars : string :=
  "abcdefghijklmnopqrstuvwxyzABCDEFGHIJKLMNOPQRSTUVWXYZ0123456789+-.".

Definition uses_netloc : list string :=
  [""; "ftp"; "http"; "gopher"; "nntp"; "telnet"; "imap"; "wais"; "file";
   "mms"; "https"; "shttp"; "snews"; "prospero"; "rtsp"; "rtspu"; "rsync";
   "svn"; "svn+ssh"; "sftp"; "nfs"; "git"; "git+ssh"; "ws"; "wss"].

(** ['\t', '\r', '\n']. *)
Definition _UNSAFE_URL_BYTES_TO_REMOVE : list ascii :=
  [ascii_of_nat 9; ascii_of_nat 13; ascii_of_nat 10].

(** The characters [chr(0)] to [chr(32)]. *)
Definition _WHATWG_C0_CONTROL_OR_SPACE : string :=
  string_of_list_ascii (map ascii_of_nat (seq 0 33)).

(** [_splitnetloc(url, start)]: the domain ends at the first of [/?#] at or
    after [start]. *)
Definition _splitnetloc (url : string) (start : nat) : string * string :=
  Str.span "/?#" (Str.drop start url).

Inductive ip_kind : Type := IPv4Address | IPv6Address.

Definition is_hex (a : ascii) : bool :=
  Str.is_digit a || Str.has a "abcdefABCDEF".

(** [re.match(r"\Av[a-fA-F0-9]+\..+\Z", hostname)]. *)
Definition ipvfuture_match (hostname : string) : bool :=
  match hostname with
  | String "v" rest =>
      let (hex, tl) := Str.span "." rest in
      negb (hex =? "") && Str.all is_hex hex &&
      match tl with
      | String "." more =>
          negb (more =? "") &&
          Str.all (fun a => negb (Ascii.eqb a (ascii_of_nat 10))) more
      | _ => false
      end
  | _ => false
  end.

Section UrlParse.

(** [unicodedata.normalize("NFKC", _)] and [ipaddress.ip_address] are
    table- and module-driven parts of the interpreter; the development is
    parametric in them. *)
Variable NFKC : string -> string.
Variable ip_address : string -> result ip_kind.

Definition _check_bracketed_host (hostname : string) : result unit :=
  if Str.startswith "v" hostname then
    if negb (ipvfuture_match hostname)
    then Raise (ValueError "IPvFuture address is invalid")
    else Ok tt
  else
    ip <- ip_address hostname ;;
    match ip with
    | IPv4Address =>
        Raise (ValueError "An IPv4 address cannot be in brackets")
    | IPv6Address => Ok tt
    end.

Definition _check_bracketed_netloc (netloc : string) : result unit :=
  let hostname_and_port := Str.rpartition_tail "@" netloc in
  hostname <-
    match Str.cut "[" hostname_and_port with
    | Some (before_bracket, bracketed) =>
        (* have_open_br *)
        if Str.truthy before_bracket
        then Raise (ValueError "Invalid IPv6 URL")
        else
          let hostname := Str.partition_head "]" bracketed in
          let port := Str.partition_tail "]" bracketed in
          if Str.truthy port && negb (Str.startswith ":" port)
          then Raise (ValueError "Invalid IPv6 URL")
          else Ok hostname
    | None => Ok (Str.partition_head ":" hostname_and_port)
    end ;;
  _check_bracketed_host hostname.

Definition _checknetloc (netloc : string) : result unit :=
  if negb (Str.truthy netloc) || Str.isascii netloc then Ok tt
  else
    let n := Str.remove "@" netloc in
    let n := Str.remove ":" n in
    let n := Str.remove "#" n in
    let n := Str.remove "?" n in
    let netloc2 := NFKC n in
    if n =? netloc2 then Ok tt
    else if existsb (fun c => Str.has c netloc2) (list_ascii_of_string "/?#@:")
    then Raise (ValueError ("netloc '" ++ netloc ++ "' contains invalid " ++
                   "characters under NFKC normalization"))
    else Ok tt.

(** [urlsplit(url)], with the defaults [scheme=''] and
    [allow_fragments=True]. *)
Definition urlsplit (url : string) : result SplitResult :=
  let url := Str.lstrip _WHATWG_C0_CONTROL_OR_SPACE url in
  let url :=
    fold_left (fun u b => Str.remove b u) _UNSAFE_URL_BYTES_TO_REMOVE url in
  let '(scheme, url) :=
    match Str.cut ":" url with
    | Some (String a0 h as head, rest) =>
        (* i > 0, with head = url[:i] and rest = url[i+1:] *)
        if Str.is_ascii_alpha a0 &&
           Str.all (fun c => Str.has c scheme_chars) head
        then (Str.lower head, rest)
        else ("", url)
    | _ => ("", url)
    end in
  '(netloc, url) <-
    (if Str.take 2 url =? "//" then
       let (netloc, url) := _splitnetloc url 2 in
       if (Str.has "[" netloc && negb (Str.has "]" netloc)) ||
          (Str.has "]" netloc && negb (Str.has "[" netloc))
       then Raise (ValueError "Invalid IPv6 URL")
       else
         (if Str.has "[" netloc && Str.has "]" netloc then
            _check_bracketed_netloc netloc
          else Ok tt) ;;;
         Ok (netloc, url)
     else Ok ("", url)) ;;
  let '(url, fragment) :=
    match Str.cut "#" url with
    | Some (u, f) => (u, f)
    | None => (url, "")
    end in
  let '(url, query) :=
    match Str.cut "?" url with
    | Some (u, q) => (u, q)
    | None => (url, "")
    end in
  _checknetloc netloc ;;;
  Ok (mkSplitResult scheme netloc url query fragment).

End UrlParse.

(** [urlunsplit((scheme, netloc, url, query, fragment))]. *)
Definition urlunsplit (components : string * string * string * string * string)
  : string :=
  let '(scheme, netloc, url, query, fragment) := components in
  let url :=
    if Str.truthy netloc ||
       (Str.truthy scheme &&
        existsb (String.eqb scheme) uses_netloc &&
        negb (Str.take 2 url =? "//"))
    then
      let url :=
        if Str.truthy url && negb (Str.take 1 url =? "/")
        then "/" ++ url else url in
      "//" ++ netloc ++ url
    else url in
  let url := if Str.truthy scheme then scheme ++ ":" ++ url else url in
  let url := if Str.truthy query then url ++ "?" ++ query else url in
  let url := if Str.truthy fragment then url ++ "#" ++ fragment else url in
  url.

(* ================================================================== *)
(** ** validate_gateway *)

Section Gateway.

Variable NFKC : string -> string.
Variable ip_address : string -> result ip_kind.

(** [validate_gateway(url)], validation.py lines 82-113.  A [ValueError] of
    [urlsplit] is not caught and comes through. *)
Definition validate_gateway (url : string) : result string :=
  url_chunks <- urlsplit NFKC ip_address url ;;
  if negb (Str.truthy (netloc url_chunks) || Str.truthy (path url_chunks))
  then Raise (ValueError ("`" ++ url ++ "` is not a valid URL"))
  else if Str.truthy (netloc url_chunks)
  then Ok (urlunsplit ("https", netloc url_chunks, path url_chunks, "", ""))
  else Ok (urlunsplit ("https", path url_chunks, "", "", "")).

End Gateway.

(* ================================================================== *)
(** ** Python values, [str], [repr] and f-string formatting *)

(** Values an enum member can carry: [None], a [str] or an [int]. *)
Inductive Atom : Type :=
| ANone
| AStr (s : string)
| AInt (z : Z).

(** A member object of an [Enum] class: the class it belongs to, its name,
    its [_value_], and what the class's [__str__] returns for it. *)
Record Member : Type := mkMember {
  m_cls : string;
  m_name : string;
  m_value : Atom;
  m_str : string
}.

(** What a caller can pass as [value: object]. *)
Inductive PyVal : Type :=
| Atomic (a : Atom)
| PyEnum (m : Member).

Abbreviation PyNone := (Atomic ANone).
Abbreviation PyStr s := (Atomic (AStr s)).
Abbreviation PyInt z := (Atomic (AInt z)).

(** An [Enum] class: its [__name__], its [__qualname__] (the same, unless
    the class is nested in another) and its members in definition order,
    which is the order [iter(enum)] yields them in.  Aliases are further
    names of members already listed and play no part in lookup by value. *)
Record EnumType : Type := mkEnumType {
  e_name : string;
  e_qualname : string;
  e_members : list Member
}.

Definition atom_eqb (a b : Atom) : bool :=
  match a, b with
  | ANone, ANone => true
  | AStr s, AStr t => String.eqb s t
  | AInt x, AInt y => Z.eqb x y
  | _, _ => false
  end.

(** Member objects are compared by identity. *)
Definition member_eqb (a b : Member) : bool :=
  String.eqb (m_cls a) (m_cls b) && String.eqb (m_name a) (m_name b) &&
  atom_eqb (m_value a) (m_value b) && String.eqb (m_str a) (m_str b).

(** The double quote character. *)
Definition dquote : ascii := ascii_of_nat 34.

Definition hex_digit (n : nat) : ascii :=
  nth n (list_ascii_of_string "0123456789abcdef") "0"%char.

(** [ch.isprintable()] for a character below 256. *)
Definition isprintable (a : ascii) : bool :=
  let n := nat_of_ascii a in
  if (n <? 127)%nat then (32 <=? n)%nat
  else (161 <=? n)%nat && negb (n =? 173)%nat.

(** One character of [repr(s)] inside the quote [q]. *)
Definition repr_char (q : ascii) (a : ascii) : string :=
  let n := nat_of_ascii a in
  if Ascii.eqb a q || Ascii.eqb a "\"%char then String "\"%char (String a "")
  else if (n =? 9)%nat then "\t"
  else if (n =? 10)%nat then "\n"
  else if (n =? 13)%nat then "\r"
  else if isprintable a then String a ""
  else "\x" ++ String (hex_digit (n / 16)) (String (hex_digit (n mod 16)) "").

Fixpoint repr_body (q : ascii) (s : string) : string :=
  match s with
  | "" => ""
  | String a t => repr_char q a ++ repr_body q t
  end.

(** [repr(s)] of a [str]: single quotes, unless the text has a single quote
    and no double quote. *)
Definition repr_str (s : string) : string :=
  let q := if Str.has "'" s && negb (Str.has dquote s) then dquote else "'"%char in
  String q (repr_body q s) ++ String q "".

(** [sys.get_int_max_str_digits()], at its default. *)
Definition int_max_str_digits : nat := 4300.

(** The number of decimal digits of [z], its sign left out. *)
Definition digits (z : Z) : nat :=
  String.length (NilZero.string_of_int (Z.to_int (Z.abs z))).

Definition int_str_limit_message : string :=
  "Exceeds the limit (4300 digits) for integer string conversion; use sys.set_int_max_str_digits() to increase the limit".

(** [str(z)] of an [int], which is also its [repr]: the interpreter refuses
    to convert an [int] of more than [int_max_str_digits] digits. *)
Definition str_int (z : Z) : result string :=
  if (int_max_str_digits <? digits z)%nat
  then Raise (ValueError int_str_limit_message)
  else Ok (NilZero.string_of_int (Z.to_int z)).

Definition repr_atom (a : Atom) : result string :=
  match a with
  | ANone => Ok "None"
  | AStr s => Ok (repr_str s)
  | AInt z => str_int z
  end.

(** [str(value)], which is also what [f"{value}"] inserts. *)
Definition py_str (v : PyVal) : result string :=
  match v with
  | PyNone => Ok "None"
  | PyStr s => Ok s
  | PyInt z => str_int z
  | PyEnum m => Ok (m_str m)
  end.

(** [repr(value)]. *)
Definition py_repr (v : PyVal) : result string :=
  match v with
  | Atomic a => repr_atom a
  | PyEnum m =>
      r <- repr_atom (m_value m) ;;
      Ok ("<" ++ m_cls m ++ "." ++ m_name m ++ ": " ++ r ++ ">")
  end.

(** [", ".join(parts)]. *)
Fixpoint join_comma (parts : list string) : string :=
  match parts with
  | [] => ""
  | [x] => x
  | x :: rest => x ++ ", " ++ join_comma rest
  end.

(** [repr(t)] of a tuple of strings, which is what [f"{t}"] inserts. *)
Definition repr_tuple (t : list string) : string :=
  match t with
  | [x] => "(" ++ repr_str x ++ ",)"
  | _ => "(" ++ join_comma (map repr_str t) ++ ")"
  end.

(** [str(enum)] of an [Enum] class, which is what [f"{enum}"] inserts. *)
Definition str_class (enum : EnumType) : string :=
  "<enum " ++ repr_str (e_name enum) ++ ">".

(* ================================================================== *)
(** ** enum.Enum *)

(** What a call does to the enum class it is given: look a value up in it,
    or iterate over its members. *)
Inductive event : Type :=
| Lookup (enum : EnumType) (value : PyVal)
| Iterate (enum : EnumType).

(** A computation that records the uses it makes of enum classes. *)
Definition traced (A : Type) : Type := list event * result A.

Definition outcome {A} (c : traced A) : result A := snd c.

(** [try: body except ValueError as exc: handler(exc)]; every exception of
    this development is a [ValueError]. *)
Definition try_except {A} (body : traced A) (handler : exn -> traced A)
  : traced A :=
  match body with
  | (t, Ok a) => (t, Ok a)
  | (t, Raise exc) => let (t', r) := handler exc in ((t ++ t')%list, r)
  end.

(** [type(value) is enum]: the instances of an [Enum] class are its
    members. *)
Definition is_instance (enum : EnumType) (value : PyVal) : bool :=
  match value with
  | PyEnum m => existsb (member_eqb m) (e_members enum)
  | Atomic _ => false
  end.

(** [enum._value2member_map_[value]], [None] standing for [KeyError]. *)
Definition value2member (enum : EnumType) (value : PyVal) : option Member :=
  match value with
  | Atomic a => find (fun m => atom_eqb (m_value m) a) (e_members enum)
  | PyEnum _ => None
  end.

(** [enum(value)]: [Enum.__new__] with the default [_missing_] hook.  The
    message of its error is ["%r is not a valid %s" % (value,
    cls.__qualname__)]; when the [repr] of the value cannot be computed, the
    error of that conversion is raised in its place. *)
Definition enum_call (enum : EnumType) (value : PyVal) : traced PyVal :=
  ([Lookup enum value],
   if is_instance enum value then Ok value
   else match value2member enum value with
        | Some m => Ok (PyEnum m)
        | None =>
            r <- py_repr value ;;
            Raise (ValueError (r ++ " is not a valid " ++ e_qualname enum))
        end).

(** [tuple(map(str, enum))]. *)
Definition tuple_map_str (enum : EnumType) : traced (list string) :=
  ([Iterate enum], Ok (map m_str (e_members enum))).

(* ================================================================== *)
(** ** validate_enum and validate_maybe_enum *)

(** [validate_enum(value, enum, param)], validation.py lines 9-45.  The
    f-string is evaluated field by field; when [str(value)] cannot be
    computed, the error of that conversion leaves the handler in place of
    the new [ValueError], with no cause. *)
Definition validate_enum (value : PyVal) (enum : EnumType) (param : string)
  : traced PyVal :=
  try_except (enum_call enum value)
    (fun exc =>
       let (t, r) := tuple_map_str enum in
       (t, valid <- r ;;
           shown <- py_str value ;;
           Raise (ValueErrorFrom
                    ("The `" ++ param ++ "` was not a valid value of " ++
                     str_class enum ++ ", was '" ++ shown ++ "'. " ++
                     "Use any of " ++ repr_tuple valid ++ ".")
                    exc))).

(** [validate_maybe_enum(value, enum, param)], validation.py lines 48-79. *)
Definition validate_maybe_enum
    (value : PyVal) (enum : EnumType) (param : string) : traced PyVal :=
  match value with
  | PyNone => ([], Ok PyNone)
  | _ => validate_enum value enum param
  end.

(** The string a member is listed under: [str(member)]. *)
Definition canonical (m : Member) : string := m_str m.

Fixpoint nodupb (l : list string) : bool :=
  match l with
  | [] => true
  | x :: t => negb (existsb (String.eqb x) t) && nodupb t
  end.

(** Modelled from the spec: the enum declarations of the package are not
    among the sources.  Section 3 gives every variant one canonical string,
    unique within its enum, which is the string form a caller supplies for
    it.  An [Enum] class follows this data model when the value of each
    member is the string [str(member)] and no two members share it.  An
    [Enum] whose members print as [Encoding.CSV], the default [__str__], is
    outside it. *)
Definition data_model (enum : EnumType) : bool :=
  forallb (fun m => atom_eqb (m_value m) (AStr (canonical m))) (e_members enum) &&
  nodupb (map canonical (e_members enum)).

(* ================================================================== *)
(** ** Vocabulary of the properties *)

(** [c] does not occur in [s]. *)
Definition lacks (c : ascii) (s : string) : bool :=
  Str.all (fun a => negb (Ascii.eqb a c)) s.

(** What is left after the domain is empty or starts with a delimiter. *)
Definition starts_in (stops : string) (s : string) : bool :=
  match s with
  | "" => true
  | String a _ => Str.has a stops
  end.

(** None of the characters [urlsplit] removes occurs in [s]. *)
Definition safe (s : string) : bool :=
  Str.all (fun a => negb (existsb (Ascii.eqb a) _UNSAFE_URL_BYTES_TO_REMOVE)) s.

(** [s] holds neither a query nor a fragment delimiter. *)
Definition plain (s : string) : bool := lacks "?" s && lacks "#" s.

Section Shape.

Variable NFKC : string -> string.
Variable ip_address : string -> result ip_kind.

(** The checks [urlsplit] makes on the brackets of a network location. *)
Definition bracket_check (netloc : string) : result unit :=
  if (Str.has "[" netloc && negb (Str.has "]" netloc)) ||
     (Str.has "]" netloc && negb (Str.has "[" netloc))
  then Raise (ValueError "Invalid IPv6 URL")
  else if Str.has "[" netloc && Str.has "]" netloc then
    _check_bracketed_netloc ip_address netloc
  else Ok tt.

(** The shape of a split result. *)
Record well_split (c : SplitResult) : Prop := {
  ws_netloc_free :
    Str.all (fun a => negb (Str.has a "/?#")) (netloc c) = true;
  ws_path_plain : plain (path c) = true;
  ws_netloc_safe : safe (netloc c) = true;
  ws_path_safe : safe (path c) = true;
  ws_path_rooted : netloc c <> "" -> starts_in "/" (path c) = true;
  ws_brackets : bracket_check (netloc c) = Ok tt;
  ws_checked : _checknetloc NFKC (netloc c) = Ok tt
}.

(** The parse of [url] yields a network location, or a path. *)
Definition yields_netloc (url : string) : Prop :=
  exists c, urlsplit NFKC ip_address url = Ok c /\ netloc c <> "".
Definition yields_path (url : string) : Prop :=
  exists c, urlsplit NFKC ip_address url = Ok c /\ path c <> "".

End Shape.

(** The message of [validate_enum], line by line of the f-string, with
    [shown] for the text of the value. *)
Definition enum_message (shown : string) (enum : EnumType) (param : string)
  : string :=
  "The `" ++ param ++ "` was not a valid value of " ++
  str_class enum ++ ", was '" ++ shown ++ "'. " ++
  "Use any of " ++ repr_tuple (map m_str (e_members enum)) ++ ".".

(** The error of the enum's own lookup, and the error [validate_enum] ends
    with when the lookup fails. *)
Definition enum_lookup_error (value : PyVal) (enum : EnumType) : exn :=
  match py_repr value with
  | Ok r => ValueError (r ++ " is not a valid " ++ e_qualname enum)
  | Raise c => c
  end.

Definition validate_enum_error
    (value : PyVal) (enum : EnumType) (param : string) : exn :=
  match py_str value with
  | Ok shown =>
      ValueErrorFrom (enum_message shown enum param)
        (enum_lookup_error value enum)
  | Raise c => c
  end.

(** An enum type of the data model, with three variants. *)
Definition Encoding_DBZ : Member := mkMember "Encoding" "DBZ" (AStr "dbz") "dbz".
Definition Encoding_CSV : Member := mkMember "Encoding" "CSV" (AStr "csv") "csv".
Definition Encoding_JSON : Member := mkMember "Encoding" "JSON" (AStr "json") "json".
Definition Encoding : EnumType :=
  mkEnumType "Encoding" "Encoding" [Encoding_DBZ; Encoding_CSV; Encoding_JSON].

(** Stand-ins for the two interpreter services, for evaluating the validator
    on ASCII inputs, where [NFKC] is not consulted. *)
Definition nfkc_id (s : string) : string := s.
Definition no_ip_address (s : string) : result ip_kind :=
  Raise (ValueError (repr_str s ++ " does not appear to be an IPv4 or IPv6 address")).

(** The stages of [urlsplit], named: the text once stripped and cleared of
    the characters to remove, the scheme taken off it, and the rest of the
    parse. *)
Definition scrub (s : string) : string :=
  fold_left (fun u b => Str.remove b u) _UNSAFE_URL_BYTES_TO_REMOVE s.

Definition cleaned (url : string) : string :=
  scrub (Str.lstrip _WHATWG_C0_CONTROL_OR_SPACE url).

(** [head] can be a scheme: it starts with an ASCII letter and is made of
    [scheme_chars]. *)
Definition is_scheme (head : string) : bool :=
  match head with
  | String a0 _ =>
      Str.is_ascii_alpha a0 && Str.all (fun c => Str.has c scheme_chars) head
  | "" => false
  end.

Definition split_scheme (url : string) : string * string :=
  match Str.cut ":" url with
  | Some (String a0 h as head, rest) =>
      if Str.is_ascii_alpha a0 &&
         Str.all (fun c => Str.has c scheme_chars) head
      then (Str.lower head, rest)
      else ("", url)
  | _ => ("", url)
  end.

Section Stages.

Variable NFKC : string -> string.
Variable ip_address : string -> result ip_kind.

Definition split_tail (scheme url : string) : result SplitResult :=
  '(netloc, url) <-
    (if Str.take 2 url =? "//" then
       let (netloc, url) := _splitnetloc url 2 in
       if (Str.has "[" netloc && negb (Str.has "]" netloc)) ||
          (Str.has "]" netloc && negb (Str.has "[" netloc))
       then Raise (ValueError "Invalid IPv6 URL")
       else
         (if Str.has "[" netloc && Str.has "]" netloc then
            _check_bracketed_netloc ip_address netloc
          else Ok tt) ;;;
         Ok (netloc, url)
     else Ok ("", url)) ;;
  let '(url, fragment) :=
    match Str.cut "#" url with
    | Some (u, f) => (u, f)
    | None => (url, "")
    end in
  let '(url, query) :=
    match Str.cut "?" url with
    | Some (u, q) => (u, q)
    | None => (url, "")
    end in
  _checknetloc NFKC netloc ;;;
  Ok (mkSplitResult scheme netloc url query fragment).

End Stages.

(** An [Enum] class with the default [__str__], one of whose members has the
    value [None]. *)
Definition Compression_NONE : Member :=
  mkMember "Compression" "NONE" ANone "Compression.NONE".
Definition Compression_ZSTD : Member :=
  mkMember "Compression" "ZSTD" (AStr "zstd") "Compression.ZSTD".
Definition Compression : EnumType :=
  mkEnumType "Compression" "Compression" [Compression_NONE; Compression_ZSTD].

(** The text before the first colon of [url] can be a scheme. *)
Definition has_scheme (url : string) : bool :=
  match Str.cut ":" url with
  | Some (head, _) => is_scheme head
  | None => false
  end.

(** A host in ASCII, not empty, with no delimiter, no bracket and none of
    the characters [urlsplit] removes. *)
Definition plain_host (n : string) : bool :=
  Str.truthy n &&
  Str.all (fun a => negb (Str.has a "/?#[]")) n &&
  Str.isascii n && safe n.

(** A path that is empty or starts with a slash, with no query or fragment
    delimiter and none of the characters [urlsplit] removes. *)
Definition rooted_path (p : string) : bool :=
  starts_in "/" p && plain p && safe p.

(* ================================================================== *)
(** ** Facts about the string operations *)

Lemma append_assoc (a b c : string) : (a ++ b) ++ c = a ++ (b ++ c).
Proof. induction a as [|x a IH]; simpl; [reflexivity | now rewrite IH]. Qed.

Lemma append_nil_r (a : string) : a ++ "" = a.
Proof. induction a as [|x a IH]; simpl; [reflexivity | now rewrite IH]. Qed.

Lemma truthy_true (s : string) : Str.truthy s = true <-> s <> "".
Proof. destruct s; simpl; split; congruence. Qed.

Lemma all_app p (a b : string) : Str.all p (a ++ b) = Str.all p a && Str.all p b.
Proof.
  induction a as [|x a IH]; simpl; [reflexivity|].
  now rewrite IH, andb_assoc.
Qed.

Lemma all_impl (p q : ascii -> bool) (s : string) :
  (forall a, p a = true -> q a = true) -> Str.all p s = true -> Str.all q s = true.
Proof.
  intros Hpq. induction s as [|x s IH]; simpl; [reflexivity|].
  intros H. apply andb_true_iff in H as [Hx Hs].
  now rewrite (Hpq _ Hx), (IH Hs).
Qed.

Lemma has_lacks c s : Str.has c s = negb (lacks c s).
Proof.
  unfold lacks. induction s as [|x s IH]; simpl; [reflexivity|].
  rewrite IH. now destruct (Ascii.eqb x c), (Str.all _ s).
Qed.

Lemma lacks_has c s : lacks c s = true <-> Str.has c s = false.
Proof. rewrite has_lacks. destruct (lacks c s); simpl; split; congruence. Qed.

Lemma lacks_app c a b : lacks c (a ++ b) = lacks c a && lacks c b.
Proof. apply all_app. Qed.

Lemma remove_lacks b s : lacks b s = true -> Str.remove b s = s.
Proof.
  unfold lacks. induction s as [|x s IH]; simpl; [reflexivity|].
  intros H. apply andb_true_iff in H as [Hx Hs].
  destruct (Ascii.eqb x b); [discriminate|]. now rewrite (IH Hs).
Qed.

Lemma lacks_remove b s : lacks b (Str.remove b s) = true.
Proof.
  unfold lacks. induction s as [|x s IH]; simpl; [reflexivity|].
  destruct (Ascii.eqb x b) eqn:E; simpl; [exact IH | now rewrite E].
Qed.

Lemma all_remove p b s : Str.all p s = true -> Str.all p (Str.remove b s) = true.
Proof.
  induction s as [|x s IH]; simpl; [reflexivity|].
  intros H. apply andb_true_iff in H as [Hx Hs].
  destruct (Ascii.eqb x b); simpl; [auto | now rewrite Hx, (IH Hs)].
Qed.

Lemma all_drop p n s : Str.all p s = true -> Str.all p (Str.drop n s) = true.
Proof.
  revert s. induction n as [|n IH]; intros [|x s]; simpl; auto.
  intros H. apply andb_true_iff in H as [_ Hs]. now apply IH.
Qed.

Lemma cut_some c s l r :
  Str.cut c s = Some (l, r) -> s = l ++ String c r /\ lacks c l = true.
Proof.
  revert l. induction s as [|x s IH]; simpl; intros l; [discriminate|].
  destruct (Ascii.eqb x c) eqn:E.
  - intros [= <- <-]. apply Ascii.eqb_eq in E. now subst.
  - destruct (Str.cut c s) as [[l' r']|]; [|discriminate].
    intros [= <- <-]. destruct (IH l' eq_refl) as [-> Hl].
    split; [reflexivity|]. unfold lacks in *. simpl. now rewrite E, Hl.
Qed.

Lemma cut_none c s : Str.cut c s = None <-> lacks c s = true.
Proof.
  unfold lacks. induction s as [|x s IH]; simpl; [tauto|].
  destruct (Ascii.eqb x c); simpl.
  - split; discriminate.
  - destruct (Str.cut c s) as [[l r]|].
    + split; [discriminate|]. intros H. apply IH in H. discriminate.
    + split; [|reflexivity]. intros _. now apply IH.
Qed.

Lemma span_app stops s :
  fst (Str.span stops s) ++ snd (Str.span stops s) = s.
Proof.
  induction s as [|x s IH]; simpl; [reflexivity|].
  destruct (Str.has x stops); simpl; [reflexivity|].
  destruct (Str.span stops s) as [l r]. simpl in *. now rewrite IH.
Qed.

Lemma span_fst_free stops s :
  Str.all (fun a => negb (Str.has a stops)) (fst (Str.span stops s)) = true.
Proof.
  induction s as [|x s IH]; simpl; [reflexivity|].
  destruct (Str.has x stops) eqn:E; simpl; [reflexivity|].
  destruct (Str.span stops s) as [l r]. simpl in *. now rewrite E, IH.
Qed.

Lemma span_snd_starts stops s : starts_in stops (snd (Str.span stops s)) = true.
Proof.
  induction s as [|x s IH]; simpl; [reflexivity|].
  destruct (Str.has x stops) eqn:E; simpl; [exact E|].
  destruct (Str.span stops s) as [l r]. exact IH.
Qed.

Lemma span_join stops l r :
  Str.all (fun a => negb (Str.has a stops)) l = true ->
  starts_in stops r = true ->
  Str.span stops (l ++ r) = (l, r).
Proof.
  intros Hl Hr. induction l as [|x l IH]; simpl in *.
  - destruct r as [|y r]; simpl in *; [reflexivity | now rewrite Hr].
  - apply andb_true_iff in Hl as [Hx Hl]. apply negb_true_iff in Hx.
    now rewrite Hx, (IH Hl).
Qed.

Lemma all_span_fst p stops s :
  Str.all p s = true -> Str.all p (fst (Str.span stops s)) = true.
Proof.
  intros H. rewrite <- (span_app stops s), all_app in H.
  now apply andb_true_iff in H.
Qed.

Lemma all_span_snd p stops s :
  Str.all p s = true -> Str.all p (snd (Str.span stops s)) = true.
Proof.
  intros H. rewrite <- (span_app stops s), all_app in H.
  now apply andb_true_iff in H.
Qed.

Lemma all_cut p c s l r :
  Str.cut c s = Some (l, r) -> Str.all p s = true ->
  Str.all p l = true /\ Str.all p r = true.
Proof.
  intros Hc H. apply cut_some in Hc as [-> _].
  rewrite all_app in H. simpl in H.
  apply andb_true_iff in H as [Hl H]. apply andb_true_iff in H as [_ Hr]. auto.
Qed.

Lemma infixb_includes needle hay :
  includes needle hay -> Str.infixb needle hay = true.
Proof.
  intros (pre & suf & ->). induction pre as [|x pre IH]; simpl.
  - assert (H : String.prefix needle (needle ++ suf) = true).
    { clear. induction needle as [|y n IH]; simpl; [now destruct suf|].
      destruct (ascii_dec y y); [exact IH | congruence]. }
    destruct needle; simpl in *; [now destruct suf | now rewrite H].
  - rewrite IH. apply orb_true_r.
Qed.

(* ================================================================== *)
(** ** What [urlsplit] returns *)

Lemma safe_lacks s b :
  In b _UNSAFE_URL_BYTES_TO_REMOVE -> safe s = true -> lacks b s = true.
Proof.
  intros Hb. apply all_impl. intros a Ha.
  apply negb_true_iff in Ha. apply negb_true_iff.
  destruct (Ascii.eqb a b) eqn:E; [|reflexivity].
  apply Ascii.eqb_eq in E. subst a.
  rewrite <- Ha. symmetry. apply existsb_exists. exists b. split; [exact Hb|].
  apply Ascii.eqb_refl.
Qed.

Lemma remove_unsafe_safe s :
  safe s = true ->
  fold_left (fun u b => Str.remove b u) _UNSAFE_URL_BYTES_TO_REMOVE s = s.
Proof.
  intros H. simpl.
  rewrite (remove_lacks (ascii_of_nat 9) s) by (apply safe_lacks; simpl; auto).
  rewrite (remove_lacks (ascii_of_nat 13) s) by (apply safe_lacks; simpl; auto).
  apply remove_lacks, safe_lacks; simpl; auto.
Qed.

Lemma safe_remove_unsafe s :
  safe (fold_left (fun u b => Str.remove b u) _UNSAFE_URL_BYTES_TO_REMOVE s) = true.
Proof.
  simpl. unfold safe.
  set (r := Str.remove _ (Str.remove _ (Str.remove _ s))).
  assert (H9 : lacks (ascii_of_nat 9) r = true).
  { subst r. unfold lacks. do 2 apply all_remove. apply lacks_remove. }
  assert (H13 : lacks (ascii_of_nat 13) r = true).
  { subst r. unfold lacks. apply all_remove. apply lacks_remove. }
  assert (H10 : lacks (ascii_of_nat 10) r = true) by apply lacks_remove.
  clearbody r. unfold lacks in *.
  induction r as [|x r IH]; simpl in *; [reflexivity|].
  apply andb_true_iff in H9 as [A9 H9].
  apply andb_true_iff in H13 as [A13 H13].
  apply andb_true_iff in H10 as [A10 H10].
  rewrite (IH H9 H13 H10), andb_true_r.
  apply negb_true_iff in A9, A13, A10. now rewrite A9, A13, A10.
Qed.

Section UrlFacts.

Variable NFKC : string -> string.
Variable ip_address : string -> result ip_kind.

Lemma rooted_prefix p r :
  starts_in "/?#" (p ++ r) = true -> plain p = true -> starts_in "/" p = true.
Proof.
  destruct p as [|x p]; [reflexivity|]. unfold plain, lacks.
  cbn [append starts_in Str.has Str.all].
  rewrite (Ascii.eqb_sym "/" x), (Ascii.eqb_sym "?" x), (Ascii.eqb_sym "#" x).
  destruct (Ascii.eqb x "/"%char), (Ascii.eqb x "?"%char),
    (Ascii.eqb x "#"%char);
    simpl; rewrite ?andb_false_r; congruence.
Qed.

Lemma urlsplit_well_split url c :
  urlsplit NFKC ip_address url = Ok c -> well_split NFKC ip_address c.
Proof.
  unfold urlsplit.
  set (u2 := fold_left _ _UNSAFE_URL_BYTES_TO_REMOVE _).
  assert (S2 : safe u2 = true) by apply safe_remove_unsafe.
  clearbody u2.
  set (su := match Str.cut ":" u2 with Some _ => _ | None => _ end).
  assert (Hs : safe (snd su) = true).
  { subst su. destruct (Str.cut ":" u2) as [[[|a0 h] rest]|] eqn:Ec; try exact S2.
    destruct (_ && _); [|exact S2].
    simpl. now apply (all_cut _ _ _ _ _ Ec) in S2. }
  destruct su as [sch u3]. simpl in Hs.
  set (A := if Str.take 2 u3 =? "//" then _ else _).
  assert (HA : forall n u4, A = Ok (n, u4) ->
            Str.all (fun a => negb (Str.has a "/?#")) n = true /\
            safe n = true /\ safe u4 = true /\
            (n <> "" -> starts_in "/?#" u4 = true) /\
            bracket_check ip_address n = Ok tt).
  { subst A. intros n u4. unfold bracket_check.
    destruct (Str.take 2 u3 =? "//").
    - unfold _splitnetloc.
      pose proof (span_fst_free "/?#" (Str.drop 2 u3)) as F1.
      pose proof (span_snd_starts "/?#" (Str.drop 2 u3)) as F2.
      pose proof (all_span_fst _ "/?#" _ (all_drop _ 2 _ Hs)) as F3.
      pose proof (all_span_snd _ "/?#" _ (all_drop _ 2 _ Hs)) as F4.
      destruct (Str.span "/?#" (Str.drop 2 u3)) as [n' u'].
      simpl in F1, F2, F3, F4.
      destruct (_ || _) eqn:E1; [discriminate|].
      destruct (Str.has "[" n' && Str.has "]" n') eqn:E2.
      + destruct (_check_bracketed_netloc _ _) as [[]|e] eqn:Eb; simpl;
          [|discriminate].
        intros [= <- <-]. rewrite E1, E2. repeat split; auto.
      + simpl. intros [= <- <-]. rewrite E1, E2. repeat split; auto.
    - intros [= <- <-]. repeat split; auto; congruence. }
  destruct A as [[n u4]|e]; simpl; [|discriminate].
  destruct (HA n u4 eq_refl) as (N1 & N2 & N3 & N4 & N5). clear HA.
  set (uf := match Str.cut "#" u4 with Some _ => _ | None => _ end).
  assert (Hf : exists f', u4 = fst uf ++ f' /\ lacks "#" (fst uf) = true).
  { subst uf. destruct (Str.cut "#" u4) as [[a f]|] eqn:E1; simpl.
    - apply cut_some in E1 as [-> H]. eauto.
    - apply cut_none in E1. exists "". now rewrite append_nil_r. }
  destruct uf as [u5 frag]. simpl in Hf. destruct Hf as (f' & -> & Hh).
  set (uq := match Str.cut "?" u5 with Some _ => _ | None => _ end).
  assert (Hq : exists q', u5 = fst uq ++ q' /\ lacks "?" (fst uq) = true).
  { subst uq. destruct (Str.cut "?" u5) as [[a q]|] eqn:E1; simpl.
    - apply cut_some in E1 as [-> H]. eauto.
    - apply cut_none in E1. exists "". now rewrite append_nil_r. }
  destruct uq as [u6 qry]. simpl in Hq. destruct Hq as (q' & -> & Hq).
  destruct (_checknetloc NFKC n) as [[]|e] eqn:Ek; simpl; [|discriminate].
  intros [= <-].
  assert (P6 : plain u6 = true).
  { unfold plain. rewrite Hq. rewrite lacks_app in Hh.
    now apply andb_true_iff in Hh as [-> _]. }
  unfold safe in N3. rewrite !all_app in N3.
  apply andb_true_iff in N3 as [N3 _]. apply andb_true_iff in N3 as [N3 _].
  constructor; simpl; auto.
  intros Hn. apply (rooted_prefix u6 (q' ++ f')); [|exact P6].
  rewrite <- append_assoc. auto.
Qed.

(** Parsing a text that starts with [https://] and holds neither a query
    nor a fragment. *)
Lemma urlsplit_https q :
  safe q = true -> plain q = true ->
  urlsplit NFKC ip_address ("https://" ++ q) =
  (bracket_check ip_address (fst (Str.span "/?#" q)) ;;;
   _checknetloc NFKC (fst (Str.span "/?#" q)) ;;;
   Ok (mkSplitResult "https" (fst (Str.span "/?#" q))
         (snd (Str.span "/?#" q)) "" "")).
Proof.
  intros Sq Pq. unfold urlsplit.
  assert (E1 : Str.lstrip _WHATWG_C0_CONTROL_OR_SPACE ("https://" ++ q)
               = "https://" ++ q) by reflexivity.
  rewrite E1.
  rewrite remove_unsafe_safe
    by (unfold safe; rewrite all_app; fold (safe q); now rewrite Sq).
  assert (E2 : Str.cut ":" ("https://" ++ q) = Some ("https", "//" ++ q))
    by reflexivity.
  rewrite E2.
  assert (E3 : Str.is_ascii_alpha "h" &&
               Str.all (fun c => Str.has c scheme_chars) "https" = true)
    by reflexivity.
  rewrite E3.
  assert (E4 : Str.lower "https" = "https") by reflexivity.
  rewrite E4.
  assert (E5 : (Str.take 2 ("//" ++ q) =? "//") = true) by reflexivity.
  rewrite E5.
  assert (E6 : _splitnetloc ("//" ++ q) 2 = Str.span "/?#" q) by reflexivity.
  rewrite E6.
  pose proof (all_span_snd _ "/?#" q (proj1 (andb_prop _ _ Pq))) as Q1.
  pose proof (all_span_snd _ "/?#" q (proj2 (andb_prop _ _ Pq))) as Q2.
  destruct (Str.span "/?#" q) as [n p]. simpl in Q1, Q2. simpl fst. simpl snd.
  unfold bracket_check.
  destruct (_ || _); [reflexivity|].
  assert (C1 : Str.cut "#" p = None) by now apply cut_none.
  assert (C2 : Str.cut "?" p = None) by now apply cut_none.
  destruct (if Str.has "[" n && Str.has "]" n then _ else _) as [[]|e];
    simpl; [|reflexivity].
  now rewrite C1, C2.
Qed.

Lemma urlunsplit_authority n p :
  n <> "" -> starts_in "/" p = true ->
  urlunsplit ("https", n, p, "", "") = "https://" ++ n ++ p.
Proof.
  intros Hn Hp. unfold urlunsplit.
  apply truthy_true in Hn. rewrite Hn. cbn [orb].
  assert (E : Str.truthy p && negb (Str.take 1 p =? "/") = false).
  { destruct p as [|x p]; [reflexivity|].
    cbn [starts_in Str.has] in Hp. rewrite orb_false_r in Hp.
    apply Ascii.eqb_eq in Hp. subst x. reflexivity. }
  rewrite E. reflexivity.
Qed.

Lemma validate_gateway_ok url c :
  urlsplit NFKC ip_address url = Ok c ->
  validate_gateway NFKC ip_address url =
  if negb (Str.truthy (netloc c) || Str.truthy (path c))
  then Raise (ValueError ("`" ++ url ++ "` is not a valid URL"))
  else if Str.truthy (netloc c)
  then Ok (urlunsplit ("https", netloc c, path c, "", ""))
  else Ok (urlunsplit ("https", path c, "", "", "")).
Proof. intros H. unfold validate_gateway. now rewrite H. Qed.

Lemma validate_gateway_parse_error url e :
  urlsplit NFKC ip_address url = Raise e ->
  validate_gateway NFKC ip_address url = Raise e.
Proof. intros H. unfold validate_gateway. now rewrite H. Qed.

(** Every accepted input is turned into [https://] followed by a non-empty
    text free of query and fragment delimiters. *)
Lemma validate_gateway_shape url r :
  validate_gateway NFKC ip_address url = Ok r ->
  exists q, r = "https://" ++ q /\ q <> "" /\ safe q = true /\ plain q = true.
Proof.
  destruct (urlsplit NFKC ip_address url) as [c|e] eqn:E.
  2:{ rewrite (validate_gateway_parse_error _ _ E). discriminate. }
  rewrite (validate_gateway_ok _ _ E).
  destruct (urlsplit_well_split _ _ E) as [W1 W2 W3 W4 W5 W6 W7].
  destruct (Str.truthy (netloc c)) eqn:Tn; cbn [orb negb].
  - apply truthy_true in Tn.
    rewrite (urlunsplit_authority _ _ Tn (W5 Tn)).
    intros [= <-]. exists (netloc c ++ path c). repeat split.
    + destruct (netloc c); [congruence | discriminate].
    + unfold safe in *. now rewrite all_app, W3, W4.
    + unfold plain in *. apply andb_true_iff in W2 as [P1 P2].
      rewrite !lacks_app, P1, P2, !andb_true_r.
      apply andb_true_iff; split;
        (eapply all_impl; [|exact W1]); cbn [Str.has]; intros a Ha;
        rewrite !(Ascii.eqb_sym _ a) in Ha;
        apply negb_true_iff in Ha; apply negb_true_iff;
        repeat (apply orb_false_iff in Ha as [? Ha]); assumption.
  - destruct (Str.truthy (path c)) eqn:Tp; cbn [negb]; [|discriminate].
    apply truthy_true in Tp.
    rewrite (urlunsplit_authority (path c) "" Tp eq_refl), append_nil_r.
    intros [= <-]. exists (path c). auto.
Qed.

(** Validating an already normalised URL: it is returned as it is, unless
    the parser rejects its authority. *)
Lemma validate_gateway_https q :
  q <> "" -> safe q = true -> plain q = true ->
  validate_gateway NFKC ip_address ("https://" ++ q) =
  (bracket_check ip_address (fst (Str.span "/?#" q)) ;;;
   _checknetloc NFKC (fst (Str.span "/?#" q)) ;;;
   Ok ("https://" ++ q)).
Proof.
  intros Hq Sq Pq. unfold validate_gateway.
  rewrite (urlsplit_https _ Sq Pq).
  pose proof (span_app "/?#" q) as Ha.
  pose proof (span_snd_starts "/?#" q) as Hs.
  pose proof (all_span_snd _ "/?#" q (proj1 (andb_prop _ _ Pq))) as Q1.
  pose proof (all_span_snd _ "/?#" q (proj2 (andb_prop _ _ Pq))) as Q2.
  destruct (Str.span "/?#" q) as [n p]. cbn [fst snd] in *.
  destruct (bracket_check ip_address n) as [[]|e]; cbn [bind]; [|reflexivity].
  destruct (_checknetloc NFKC n) as [[]|e]; cbn [bind]; [|reflexivity].
  cbn [netloc path].
  destruct n as [|x n]; cbn [Str.truthy orb negb].
  - simpl in Ha. subst p.
    assert (T : Str.truthy q = true) by now apply truthy_true.
    rewrite T. cbn [negb].
    now rewrite (urlunsplit_authority q "" Hq eq_refl), append_nil_r.
  - rewrite urlunsplit_authority; [now rewrite Ha | discriminate |].
    apply (rooted_prefix p ""); [now rewrite append_nil_r|].
    unfold plain, lacks. now rewrite Q1, Q2.
Qed.

End UrlFacts.

(* ================================================================== *)
(** ** Properties of validate_gateway *)

Section GatewayClaims.

Variable NFKC : string -> string.
Variable ip_address : string -> result ip_kind.

(** C4: when the parse of [url] yields a non-empty network location,
    [validate_gateway url] returns the URL rebuilt from the scheme [https],
    that network location and the original path, and nothing else: it is
    [https://] followed by the network location and the path, whatever the
    scheme, query and fragment of [url] were.  In particular
    [http://host.example.com/path] becomes [https://host.example.com/path]. *)
Theorem validate_gateway_netloc_branch :
  (forall (url : string) (c : SplitResult),
     urlsplit NFKC ip_address url = Ok c ->
     netloc c <> "" ->
     validate_gateway NFKC ip_address url
       = Ok (urlunsplit ("https", netloc c, path c, "", "")) /\
     urlunsplit ("https", netloc c, path c, "", "")
       = "https://" ++ netloc c ++ path c) /\
  validate_gateway NFKC ip_address "http://host.example.com/path"
    = Ok "https://host.example.com/path".
Proof.
  split; [|reflexivity].
  intros url c E Hn.
  rewrite (validate_gateway_ok _ _ _ _ E).
  pose proof (proj2 (truthy_true _) Hn) as T. rewrite T. cbn [orb negb].
  split; [reflexivity|].
  apply urlunsplit_authority; [exact Hn|].
  now apply (ws_path_rooted _ _ _ (urlsplit_well_split _ _ _ _ E)).
Qed.

(** C5: when the parse of [url] yields an empty network location and a
    non-empty path, [validate_gateway url] passes the whole path, as it is,
    as the authority of the result, with the scheme [https] and an empty
    path: the result is [https://] followed by the path, slashes included.
    In particular [host.example.com/path] parses with no network location
    and the path [host.example.com/path], and becomes
    [https://host.example.com/path] through this branch. *)
Theorem validate_gateway_path_as_host :
  (forall (url : string) (c : SplitResult),
     urlsplit NFKC ip_address url = Ok c ->
     netloc c = "" ->
     path c <> "" ->
     validate_gateway NFKC ip_address url
       = Ok (urlunsplit ("https", path c, "", "", "")) /\
     urlunsplit ("https", path c, "", "", "") = "https://" ++ path c) /\
  urlsplit NFKC ip_address "host.example.com/path"
    = Ok (mkSplitResult "" "" "host.example.com/path" "" "") /\
  validate_gateway NFKC ip_address "host.example.com/path"
    = Ok "https://host.example.com/path".
Proof.
  split; [|split; reflexivity].
  intros url c E Hn Hp.
  rewrite (validate_gateway_ok _ _ _ _ E), Hn.
  pose proof (proj2 (truthy_true _) Hp) as T. cbn [Str.truthy orb].
  rewrite T. cbn [negb]. split; [reflexivity|].
  now rewrite (urlunsplit_authority _ "" Hp eq_refl), append_nil_r.
Qed.

(** C6: [validate_gateway url] raises exactly when the parse of [url]
    yields neither a network location nor a path.  That is the case when
    the split result has both empty, where the error is the validator's
    own, and when the parser rejects [url] and yields nothing, where the
    parser's [ValueError] comes through.  In particular the empty string
    is refused. *)
Theorem validate_gateway_raises_iff (url : string) :
  (raises (validate_gateway NFKC ip_address url) <->
   ~ yields_netloc NFKC ip_address url /\ ~ yields_path NFKC ip_address url) /\
  (forall c, urlsplit NFKC ip_address url = Ok c ->
     (raises (validate_gateway NFKC ip_address url) <-> netloc c = "" /\ path c = "") /\
     (netloc c = "" /\ path c = "" ->
      validate_gateway NFKC ip_address url
        = Raise (ValueError ("`" ++ url ++ "` is not a valid URL")))) /\
  validate_gateway NFKC ip_address "" = Raise (ValueError "`` is not a valid URL").
Proof.
  assert (K : forall c, urlsplit NFKC ip_address url = Ok c ->
     (raises (validate_gateway NFKC ip_address url) <-> netloc c = "" /\ path c = "") /\
     (netloc c = "" /\ path c = "" ->
      validate_gateway NFKC ip_address url
        = Raise (ValueError ("`" ++ url ++ "` is not a valid URL")))).
  { intros c E.
    rewrite (validate_gateway_ok _ _ _ _ E).
    destruct (netloc c) as [|x n], (path c) as [|y p]; cbn [Str.truthy orb negb].
    - split; [|reflexivity]. split; [auto | intros _; eexists; reflexivity].
    - split; [split|]; [intros [e H]; discriminate | | ];
        intros [_ H]; discriminate.
    - split; [split|]; [intros [e H]; discriminate | | ];
        intros [H _]; discriminate.
    - split; [split|]; [intros [e H]; discriminate | | ];
        intros [H _]; discriminate. }
  split; [|split; [exact K | reflexivity]].
  unfold yields_netloc, yields_path.
  destruct (urlsplit NFKC ip_address url) as [c|e] eqn:E.
  - destruct (K c eq_refl) as [-> _]. split.
    + intros [Hn Hp]. split; intros (c' & [= <-] & H); congruence.
    + intros [Hn Hp].
      destruct (netloc c) as [|x n] eqn:En.
      * destruct (path c) as [|y p] eqn:Ep; [auto|].
        exfalso. apply Hp. exists c. rewrite Ep. split; congruence.
      * exfalso. apply Hn. exists c. rewrite En. split; congruence.
  - split.
    + intros _. split; intros (c' & H & _); discriminate.
    + intros _. exists e.
      now apply validate_gateway_parse_error.
Qed.

(** C8: whenever [validate_gateway url] returns, what it returns is one
    absolute URL with the scheme [https]: the text [https://] followed by a
    non-empty rest, with no query delimiter and no fragment delimiter in
    it; and every parse of it has the scheme [https], an empty query and an
    empty fragment. *)
Theorem validate_gateway_https_no_query_no_fragment (url r : string) :
  validate_gateway NFKC ip_address url = Ok r ->
  (exists rest, r = "https://" ++ rest /\ rest <> "") /\
  Str.has "?" r = false /\
  Str.has "#" r = false /\
  (forall c, urlsplit NFKC ip_address r = Ok c ->
     scheme c = "https" /\ query c = "" /\ fragment c = "").
Proof.
  intros H. destruct (validate_gateway_shape _ _ _ _ H) as (q & -> & Hq & Sq & Pq).
  split; [now exists q|].
  pose proof Pq as Pq'. unfold plain in Pq'. apply andb_true_iff in Pq' as [P1 P2].
  split; [|split].
  - apply lacks_has. rewrite lacks_app, P1. reflexivity.
  - apply lacks_has. rewrite lacks_app, P2. reflexivity.
  - intros c. rewrite (urlsplit_https _ _ _ Sq Pq).
    destruct (bracket_check _ _) as [[]|e]; cbn [bind]; [|discriminate].
    destruct (_checknetloc _ _) as [[]|e]; cbn [bind]; [|discriminate].
    intros [= <-]. auto.
Qed.

(** C9: when the parse of [u] yields a non-empty network location,
    [validate_gateway u] returns, and validating what it returns gives the
    same URL again. *)
Theorem validate_gateway_idempotent_netloc (u : string) (c : SplitResult) :
  urlsplit NFKC ip_address u = Ok c ->
  netloc c <> "" ->
  exists r,
    validate_gateway NFKC ip_address u = Ok r /\
    validate_gateway NFKC ip_address r = Ok r.
Proof.
  intros E Hn.
  destruct (urlsplit_well_split _ _ _ _ E) as [W1 W2 W3 W4 W5 W6 W7].
  exists ("https://" ++ netloc c ++ path c). split.
  - rewrite (validate_gateway_ok _ _ _ _ E).
    pose proof (proj2 (truthy_true _) Hn) as T. rewrite T. cbn [orb negb].
    now rewrite (urlunsplit_authority _ _ Hn (W5 Hn)).
  - assert (J : Str.span "/?#" (netloc c ++ path c) = (netloc c, path c)).
    { apply span_join; [exact W1|].
      specialize (W5 Hn). destruct (path c) as [|x p]; [reflexivity|].
      cbn [starts_in Str.has] in *. rewrite orb_false_r in W5. now rewrite W5. }
    rewrite validate_gateway_https.
    + rewrite J. cbn [fst]. now rewrite W6, W7.
    + destruct (netloc c); [congruence | discriminate].
    + unfold safe in *. now rewrite all_app, W3, W4.
    + pose proof (span_fst_free "/?#" (netloc c ++ path c)) as F.
      rewrite J in F. cbn [fst] in F.
      unfold plain in *. apply andb_true_iff in W2 as [P1 P2].
      rewrite !lacks_app, P1, P2, !andb_true_r.
      apply andb_true_iff; split;
        (eapply all_impl; [|exact W1]); cbn [Str.has]; intros a Ha;
        rewrite !(Ascii.eqb_sym _ a) in Ha;
        apply negb_true_iff in Ha; apply negb_true_iff;
        repeat (apply orb_false_iff in Ha as [? Ha]); assumption.
Qed.

(** C10, as amended: whenever [validate_gateway u] returns [r], validating
    [r] again either returns [r] itself or raises because the parser
    rejects [r]; it never returns another URL. *)
Theorem validate_gateway_idempotent_unless_rejected (u r : string) :
  validate_gateway NFKC ip_address u = Ok r ->
  validate_gateway NFKC ip_address r = Ok r \/
  exists e, urlsplit NFKC ip_address r = Raise e /\
            validate_gateway NFKC ip_address r = Raise e.
Proof.
  intros H. destruct (validate_gateway_shape _ _ _ _ H) as (q & -> & Hq & Sq & Pq).
  rewrite (validate_gateway_https _ _ _ Hq Sq Pq), (urlsplit_https _ _ _ Sq Pq).
  destruct (bracket_check _ _) as [[]|e]; cbn [bind]; [|right; eauto].
  destruct (_checknetloc _ _) as [[]|e]; cbn [bind]; [left; reflexivity|right; eauto].
Qed.

End GatewayClaims.

(* ================================================================== *)
(** ** Facts about enum lookup and message formatting *)

Lemma atom_eqb_eq (a b : Atom) : atom_eqb a b = true <-> a = b.
Proof.
  destruct a, b; simpl; split; try congruence; try discriminate.
  - intros H. apply String.eqb_eq in H. now subst.
  - intros [= ->]. apply String.eqb_refl.
  - intros H. apply Z.eqb_eq in H. now subst.
  - intros [= ->]. apply Z.eqb_refl.
Qed.

Lemma member_eqb_eq (a b : Member) : member_eqb a b = true <-> a = b.
Proof.
  unfold member_eqb. destruct a as [c n v t], b as [c' n' v' t']. simpl.
  rewrite !andb_true_iff, !String.eqb_eq, atom_eqb_eq.
  split; [intros [[[-> ->] ->] ->]; reflexivity | intros [= -> -> -> ->]; auto].
Qed.

Lemma is_instance_member (enum : EnumType) (m : Member) :
  is_instance enum (PyEnum m) = true <-> In m (e_members enum).
Proof.
  simpl. rewrite existsb_exists. split.
  - intros (x & Hx & E). apply member_eqb_eq in E. now subst.
  - intros H. exists m. split; [exact H | now apply member_eqb_eq].
Qed.

Lemma nodupb_map_inj {A} (f : A -> string) (l : list A) (a b : A) :
  nodupb (map f l) = true -> In a l -> In b l -> f a = f b -> a = b.
Proof.
  induction l as [|x l IH]; simpl; [tauto|].
  intros H. apply andb_true_iff in H as [Hx Hl]. apply negb_true_iff in Hx.
  assert (K : forall y, In y l -> f x <> f y).
  { intros y Hy E. rewrite <- not_true_iff_false in Hx. apply Hx.
    apply existsb_exists. exists (f y). split; [now apply in_map|].
    now apply String.eqb_eq. }
  intros [->|Ha] [->|Hb] E; auto.
  - now apply K in E.
  - symmetry in E. now apply K in E.
Qed.

Lemma data_model_value (enum : EnumType) (m : Member) :
  data_model enum = true -> In m (e_members enum) ->
  m_value m = AStr (canonical m).
Proof.
  unfold data_model. intros H Hm. apply andb_true_iff in H as [H _].
  rewrite forallb_forall in H. now apply atom_eqb_eq, H.
Qed.

Lemma data_model_lookup (enum : EnumType) (m : Member) :
  data_model enum = true -> In m (e_members enum) ->
  value2member enum (PyStr (canonical m)) = Some m.
Proof.
  intros D Hm. simpl.
  assert (V : forall x, In x (e_members enum) -> m_value x = AStr (canonical x))
    by (intros x; now apply data_model_value).
  assert (J : forall x, In x (e_members enum) -> canonical x = canonical m -> x = m).
  { intros x Hx. apply (nodupb_map_inj canonical (e_members enum)); auto.
    unfold data_model in D. now apply andb_true_iff in D as [_ D]. }
  clear D. induction (e_members enum) as [|x l IH]; [destruct Hm|].
  simpl. destruct (atom_eqb (m_value x) (AStr (canonical m))) eqn:E.
  - apply atom_eqb_eq in E. rewrite (V x (or_introl eq_refl)) in E.
    injection E as E. f_equal. apply J; simpl; auto.
  - destruct Hm as [->|Hm].
    + rewrite (V m (or_introl eq_refl)) in E.
      simpl in E. now rewrite String.eqb_refl in E.
    + apply IH; auto; intros; [apply V | apply J]; simpl; auto.
Qed.






Lemma validate_enum_cases (value : PyVal) (enum : EnumType) (param : string) :
  (exists r, validate_enum value enum param = ([Lookup enum value], Ok r)) \/
  validate_enum value enum param
    = ([Lookup enum value; Iterate enum],
       Raise (validate_enum_error value enum param)).
Proof.
  unfold validate_enum, enum_call, try_except.
  destruct (is_instance enum value); [left; eauto|].
  destruct (value2member enum value); [left; eauto|].
  right. unfold validate_enum_error, enum_lookup_error, enum_message.
  destruct (py_repr value) as [r|c]; cbn [bind tuple_map_str];
    now destruct (py_str value).
Qed.

Lemma enum_message_includes (shown : string) (enum : EnumType) (param : string) :
  includes ("`" ++ param ++ "`") (enum_message shown enum param) /\
  includes ("'" ++ shown ++ "'") (enum_message shown enum param) /\
  includes (repr_tuple (map m_str (e_members enum)))
    (enum_message shown enum param).
Proof.
  unfold enum_message. repeat split.
  - exists "The ", (" was not a valid value of " ++
      str_class enum ++ ", was '" ++ shown ++ "'. " ++
      "Use any of " ++ repr_tuple (map m_str (e_members enum)) ++ ".").
    now rewrite !append_assoc.
  - exists ("The `" ++ param ++ "` was not a valid value of " ++
      str_class enum ++ ", was "),
      (". Use any of " ++ repr_tuple (map m_str (e_members enum)) ++ ".").
    now rewrite !append_assoc.
  - exists ("The `" ++ param ++ "` was not a valid value of " ++
      str_class enum ++ ", was '" ++ shown ++ "'. Use any of "), ".".
    now rewrite !append_assoc.
Qed.


(* ================================================================== *)
(** ** Properties of validate_enum and validate_maybe_enum *)

(** C1: for an enum type that follows the data model and a value that is one
    of its members, or the canonical string of one of its members,
    [validate_enum] returns that member, whatever the parameter name.  All
    it does is one lookup in the enum: nothing is raised and the enum is not
    iterated over. *)
Theorem validate_enum_returns_member
    (enum : EnumType) (m : Member) (value : PyVal) (param : string) :
  data_model enum = true ->
  In m (e_members enum) ->
  value = PyEnum m \/ value = PyStr (canonical m) ->
  validate_enum value enum param = ([Lookup enum value], Ok (PyEnum m)).
Proof.
  intros D Hm [->| ->]; unfold validate_enum, enum_call, try_except.
  - now rewrite (proj2 (is_instance_member enum m) Hm).
  - cbn [is_instance]. now rewrite (data_model_lookup enum m D Hm).
Qed.


(** C7: given [None], [validate_maybe_enum] returns [None] at once, for
    every enum type and parameter name: the enum is neither looked up in nor
    iterated over.  Given anything else, it is [validate_enum]. *)
Theorem validate_maybe_enum_absent_or_delegates :
  (forall (enum : EnumType) (param : string),
     validate_maybe_enum PyNone enum param = ([], Ok PyNone)) /\
  (forall (value : PyVal) (enum : EnumType) (param : string),
     value <> PyNone ->
     validate_maybe_enum value enum param = validate_enum value enum param).
Proof.
  split; [reflexivity|].
  intros [[| |]|] enum param H; try reflexivity. congruence.
Qed.

Section MessageClaims.

Variable NFKC : string -> string.
Variable ip_address : string -> result ip_kind.

(** C3, as amended: every failure of [validate_enum] and of
    [validate_maybe_enum] on a value whose [str] can be computed, which is
    every value but an [int] of more than 4300 digits, has a message that
    includes the parameter name, between backquotes, and the offending
    value as it is, between single quotes.  Every failure
    [validate_gateway] raises by its own check, on a text that parses, has
    the message made of the offending text between backquotes and
    [ is not a valid URL]; [validate_gateway] is given no parameter name
    and its message is a function of the text alone. *)
Theorem validation_failure_messages :
  (forall value enum param e shown,
     outcome (validate_enum value enum param) = Raise e ->
     py_str value = Ok shown ->
     includes ("`" ++ param ++ "`") (exn_msg e) /\
     includes ("'" ++ shown ++ "'") (exn_msg e)) /\
  (forall value enum param e shown,
     outcome (validate_maybe_enum value enum param) = Raise e ->
     py_str value = Ok shown ->
     includes ("`" ++ param ++ "`") (exn_msg e) /\
     includes ("'" ++ shown ++ "'") (exn_msg e)) /\
  (forall url c e,
     urlsplit NFKC ip_address url = Ok c ->
     validate_gateway NFKC ip_address url = Raise e ->
     exn_msg e = "`" ++ url ++ "` is not a valid URL" /\
     includes url (exn_msg e)).
Proof.
  assert (K : forall value enum param e shown,
     outcome (validate_enum value enum param) = Raise e ->
     py_str value = Ok shown ->
     includes ("`" ++ param ++ "`") (exn_msg e) /\
     includes ("'" ++ shown ++ "'") (exn_msg e)).
  { intros value enum param e shown.
    destruct (validate_enum_cases value enum param) as [[r ->]| ->];
      cbn [outcome snd]; [discriminate|].
    intros [= <-] S. unfold validate_enum_error. rewrite S. cbn [exn_msg].
    destruct (enum_message_includes shown enum param) as (I1 & I2 & _). auto. }
  split; [exact K|]. split.
  - intros [[| |]|] enum param e shown; try apply K. discriminate.
  - intros url c e E. rewrite (validate_gateway_ok _ _ _ _ E).
    destruct (negb _); [|destruct (Str.truthy _); discriminate].
    intros [= <-]. cbn [exn_msg]. split; [reflexivity|].
    exists "`", "` is not a valid URL". reflexivity.
Qed.

End MessageClaims.

(* ================================================================== *)
(** ** Counterexamples *)


(** C3 fails for [validate_gateway]: the message of its own failure, on the
    empty string, names no parameter, neither [url], the one parameter of
    the function, nor [gateway]; and the failure that comes through from the
    parser, on [//[], includes neither a name nor the offending text. *)
Lemma validate_gateway_message_without_parameter_name :
  (forall NFKC ip_address,
     validate_gateway NFKC ip_address ""
       = Raise (ValueError "`` is not a valid URL")) /\
  ~ includes "url" "`` is not a valid URL" /\
  ~ includes "gateway" "`` is not a valid URL" /\
  (forall NFKC ip_address,
     validate_gateway NFKC ip_address "//["
       = Raise (ValueError "Invalid IPv6 URL")) /\
  ~ includes "//[" "Invalid IPv6 URL".
Proof.
  repeat split; try reflexivity;
    intros H; apply infixb_includes in H; discriminate H.
Qed.

(** C10 fails at [[]: it has no network location, so it is accepted, with
    the path as the authority, and becomes [https://[]; that text the
    parser rejects for its unbalanced bracket, so validating it again
    raises.  Idempotence does not hold on the whole accepted domain. *)
Lemma validate_gateway_not_idempotent_on_bracket :
  (forall NFKC ip_address,
     validate_gateway NFKC ip_address "[" = Ok "https://[") /\
  (forall NFKC ip_address,
     validate_gateway NFKC ip_address "https://["
       = Raise (ValueError "Invalid IPv6 URL")) /\
  ~ (forall NFKC ip_address u r,
       validate_gateway NFKC ip_address u = Ok r ->
       validate_gateway NFKC ip_address r = Ok r).
Proof.
  repeat split; try reflexivity.
  intros H. specialize (H nfkc_id no_ip_address "[" "https://[" eq_refl).
  discriminate H.
Qed.

(* ================================================================== *)
(** ** Instances at concrete inputs *)

(** C1 at the string [csv] of the enum [Encoding]. *)
Lemma validate_enum_returns_member_witness :
  data_model Encoding = true /\
  In Encoding_CSV (e_members Encoding) /\
  validate_enum (PyStr "csv") Encoding "encoding"
    = ([Lookup Encoding (PyStr "csv")], Ok (PyEnum Encoding_CSV)).
Proof.
  split; [reflexivity|]. split; [simpl; auto|].
  apply (validate_enum_returns_member Encoding Encoding_CSV (PyStr "csv") "encoding");
    [reflexivity | simpl; auto | right; reflexivity].
Defined.



(** C3, as amended, at a refused enum value and at a refused URL. *)
Lemma validation_failure_messages_witness :
  (includes "`encoding`"
     "The `encoding` was not a valid value of <enum 'Encoding'>, was 'parquet'. Use any of ('dbz', 'csv', 'json')." /\
   includes "'parquet'"
     "The `encoding` was not a valid value of <enum 'Encoding'>, was 'parquet'. Use any of ('dbz', 'csv', 'json').") /\
  includes "?q" "`?q` is not a valid URL".
Proof.
  destruct (validation_failure_messages nfkc_id no_ip_address) as (K1 & K2 & K3).
  split.
  - exact (K2 (PyStr "parquet") Encoding "encoding" _ "parquet" eq_refl eq_refl).
  - exact (proj2 (K3 "?q" (mkSplitResult "" "" "" "q" "") _ eq_refl eq_refl)).
Defined.

(** C4 at a URL with a scheme, a query and a fragment to discard. *)
Lemma validate_gateway_netloc_branch_witness :
  urlsplit nfkc_id no_ip_address "http://host.example.com/path?a=1#top"
    = Ok (mkSplitResult "http" "host.example.com" "/path" "a=1" "top") /\
  validate_gateway nfkc_id no_ip_address "http://host.example.com/path?a=1#top"
    = Ok (urlunsplit ("https", "host.example.com", "/path", "", "")) /\
  urlunsplit ("https", "host.example.com", "/path", "", "")
    = "https://host.example.com/path".
Proof.
  split; [reflexivity|].
  apply (proj1 (validate_gateway_netloc_branch nfkc_id no_ip_address)
           "http://host.example.com/path?a=1#top"
           (mkSplitResult "http" "host.example.com" "/path" "a=1" "top"));
    [reflexivity | discriminate].
Defined.

(** C5 at a host and path given without a scheme. *)
Lemma validate_gateway_path_as_host_witness :
  urlsplit nfkc_id no_ip_address "gateway.example.com/extra"
    = Ok (mkSplitResult "" "" "gateway.example.com/extra" "" "") /\
  validate_gateway nfkc_id no_ip_address "gateway.example.com/extra"
    = Ok (urlunsplit ("https", "gateway.example.com/extra", "", "", "")) /\
  urlunsplit ("https", "gateway.example.com/extra", "", "", "")
    = "https://gateway.example.com/extra".
Proof.
  split; [reflexivity|].
  apply (proj1 (validate_gateway_path_as_host nfkc_id no_ip_address)
           "gateway.example.com/extra"
           (mkSplitResult "" "" "gateway.example.com/extra" "" ""));
    [reflexivity | reflexivity | discriminate].
Defined.

(** C6 at a text that parses to a scheme, a query and a fragment only. *)
Lemma validate_gateway_raises_iff_witness :
  urlsplit nfkc_id no_ip_address "http:?q#f"
    = Ok (mkSplitResult "http" "" "" "q" "f") /\
  validate_gateway nfkc_id no_ip_address "http:?q#f"
    = Raise (ValueError "`http:?q#f` is not a valid URL").
Proof.
  split; [reflexivity|].
  apply (proj2 (proj1 (proj2 (validate_gateway_raises_iff
                                nfkc_id no_ip_address "http:?q#f"))
                  (mkSplitResult "http" "" "" "q" "f") eq_refl));
    split; reflexivity.
Defined.

(** C7 at a value that is not [None]. *)
Lemma validate_maybe_enum_absent_or_delegates_witness :
  PyStr "csv" <> PyNone /\
  validate_maybe_enum (PyStr "csv") Encoding "encoding"
    = validate_enum (PyStr "csv") Encoding "encoding".
Proof.
  split; [discriminate|].
  apply (proj2 validate_maybe_enum_absent_or_delegates); discriminate.
Defined.

(** C8 at a URL with user, port, query and fragment. *)
Lemma validate_gateway_https_no_query_no_fragment_witness :
  validate_gateway nfkc_id no_ip_address "ftp://user@host.example.com:8080/a/b?x=1#y"
    = Ok "https://user@host.example.com:8080/a/b" /\
  Str.has "?" "https://user@host.example.com:8080/a/b" = false /\
  Str.has "#" "https://user@host.example.com:8080/a/b" = false.
Proof.
  split; [reflexivity|].
  destruct (validate_gateway_https_no_query_no_fragment nfkc_id no_ip_address
              "ftp://user@host.example.com:8080/a/b?x=1#y"
              "https://user@host.example.com:8080/a/b" eq_refl)
    as (_ & H1 & H2 & _).
  split; [exact H1 | exact H2].
Defined.

(** C9 at [http://host.example.com/path]. *)
Lemma validate_gateway_idempotent_netloc_witness :
  urlsplit nfkc_id no_ip_address "http://host.example.com/path"
    = Ok (mkSplitResult "http" "host.example.com" "/path" "" "") /\
  exists r,
    validate_gateway nfkc_id no_ip_address "http://host.example.com/path" = Ok r /\
    validate_gateway nfkc_id no_ip_address r = Ok r.
Proof.
  split; [reflexivity|].
  apply (validate_gateway_idempotent_netloc nfkc_id no_ip_address
           "http://host.example.com/path"
           (mkSplitResult "http" "host.example.com" "/path" "" ""));
    [reflexivity | discriminate].
Defined.

(** C10, as amended, at an input of the path-as-host branch. *)
Lemma validate_gateway_idempotent_unless_rejected_witness :
  validate_gateway nfkc_id no_ip_address "host.example.com/path"
    = Ok "https://host.example.com/path" /\
  (validate_gateway nfkc_id no_ip_address "https://host.example.com/path"
     = Ok "https://host.example.com/path" \/
   exists e,
     urlsplit nfkc_id no_ip_address "https://host.example.com/path" = Raise e /\
     validate_gateway nfkc_id no_ip_address "https://host.example.com/path" = Raise e).
Proof.
  split; [reflexivity|].
  apply (validate_gateway_idempotent_unless_rejected nfkc_id no_ip_address
           "host.example.com/path"); reflexivity.
Defined.

(* ================================================================== *)
(** ** Further properties of validate_enum and validate_maybe_enum *)

Lemma validate_enum_eq (value : PyVal) (enum : EnumType) (param : string) :
  validate_enum value enum param =
  if is_instance enum value then ([Lookup enum value], Ok value)
  else match value2member enum value with
       | Some m => ([Lookup enum value], Ok (PyEnum m))
       | None => ([Lookup enum value; Iterate enum],
                  Raise (validate_enum_error value enum param))
       end.
Proof.
  unfold validate_enum, enum_call, try_except.
  destruct (is_instance enum value); [reflexivity|].
  destruct (value2member enum value); [reflexivity|].
  unfold validate_enum_error, enum_lookup_error, enum_message.
  destruct (py_repr value) as [r|c]; cbn [bind tuple_map_str];
    now destruct (py_str value).
Qed.

Lemma enum_result_member
    (value : PyVal) (enum : EnumType) (param : string) (r : PyVal) :
  outcome (validate_enum value enum param) = Ok r ->
  exists m, In m (e_members enum) /\ r = PyEnum m.
Proof.
  rewrite validate_enum_eq.
  destruct (is_instance enum value) eqn:I.
  - intros [= <-]. destruct value as [a|m]; [discriminate|].
    exists m. split; [now apply is_instance_member | reflexivity].
  - destruct value as [a|m]; cbn [value2member]; [|discriminate].
    destruct (find _ _) as [m|] eqn:L; [|discriminate].
    intros [= <-]. exists m. split; [now apply find_some in L | reflexivity].
Qed.



(** X3: validating again what [validate_enum] returned gives the same
    member, with one lookup, under any parameter name; and so does
    [validate_maybe_enum]. *)
Theorem validate_enum_idempotent
    (value : PyVal) (enum : EnumType) (param param' : string) (r : PyVal) :
  outcome (validate_enum value enum param) = Ok r ->
  validate_enum r enum param' = ([Lookup enum r], Ok r) /\
  validate_maybe_enum r enum param' = ([Lookup enum r], Ok r).
Proof.
  intros H. destruct (enum_result_member _ _ _ _ H) as (m & Hm & ->).
  assert (K : validate_enum (PyEnum m) enum param'
              = ([Lookup enum (PyEnum m)], Ok (PyEnum m))).
  { unfold validate_enum, enum_call, try_except.
    now rewrite (proj2 (is_instance_member enum m) Hm). }
  split; [exact K | exact K].
Qed.



(** X6: a member whose value is [None] cannot be had by value through
    [validate_maybe_enum]: [validate_enum] resolves [None] to a member with
    that value, [validate_maybe_enum] returns [None]. *)
Theorem validate_maybe_enum_shadows_none_member
    (enum : EnumType) (param : string) (m : Member) :
  In m (e_members enum) ->
  m_value m = ANone ->
  (exists m', In m' (e_members enum) /\ m_value m' = ANone /\
     validate_enum PyNone enum param
       = ([Lookup enum PyNone], Ok (PyEnum m'))) /\
  validate_maybe_enum PyNone enum param = ([], Ok PyNone).
Proof.
  intros Hm Hv. split; [|reflexivity].
  unfold validate_enum, enum_call, try_except.
  cbn [is_instance value2member].
  destruct (find _ (e_members enum)) as [x|] eqn:F.
  - apply find_some in F as [Hx E]. apply atom_eqb_eq in E.
    exists x. auto.
  - exfalso. apply (find_none _ _ F) in Hm. now rewrite Hv in Hm.
Qed.



(** X3 at the string [zstd] of [Compression]. *)
Lemma validate_enum_idempotent_witness :
  validate_enum (PyEnum Compression_ZSTD) Compression "c"
    = ([Lookup Compression (PyEnum Compression_ZSTD)],
       Ok (PyEnum Compression_ZSTD)) /\
  validate_maybe_enum (PyEnum Compression_ZSTD) Compression "c"
    = ([Lookup Compression (PyEnum Compression_ZSTD)],
       Ok (PyEnum Compression_ZSTD)).
Proof.
  apply (validate_enum_idempotent (PyStr "zstd") Compression "compression" "c").
  reflexivity.
Defined.



(** X6 at [Compression], whose member [NONE] has the value [None]. *)
Lemma validate_maybe_enum_shadows_none_member_witness :
  (exists m', In m' (e_members Compression) /\ m_value m' = ANone /\
     validate_enum PyNone Compression "compression"
       = ([Lookup Compression PyNone], Ok (PyEnum m'))) /\
  validate_maybe_enum PyNone Compression "compression" = ([], Ok PyNone).
Proof.
  apply (validate_maybe_enum_shadows_none_member Compression "compression"
           Compression_NONE); [simpl; auto | reflexivity].
Defined.


(* ================================================================== *)
(** ** Further facts about the string operations and about parsing *)

Lemma remove_app b (a c : string) :
  Str.remove b (a ++ c) = Str.remove b a ++ Str.remove b c.
Proof.
  induction a as [|x a IH]; simpl; [reflexivity|].
  destruct (Ascii.eqb x b); simpl; now rewrite IH.
Qed.

Lemma scrub_app (a c : string) : scrub (a ++ c) = scrub a ++ scrub c.
Proof. unfold scrub. simpl. now rewrite !remove_app. Qed.

Lemma scrub_safe (s : string) : safe s = true -> scrub s = s.
Proof. apply remove_unsafe_safe. Qed.

Lemma safe_scrub (s : string) : safe (scrub s) = true.
Proof. apply safe_remove_unsafe. Qed.

Lemma all_scrub p (s : string) :
  Str.all p s = true -> Str.all p (scrub s) = true.
Proof. intros H. unfold scrub. simpl. now do 3 apply all_remove. Qed.

Lemma all_lstrip p chars (s : string) :
  Str.all p s = true -> Str.all p (Str.lstrip chars s) = true.
Proof.
  induction s as [|x s IH]; simpl; [reflexivity|].
  intros H. destruct (Str.has x chars); [|exact H].
  apply andb_true_iff in H as [_ Hs]. auto.
Qed.

Lemma all_cleaned p (url : string) :
  Str.all p url = true -> Str.all p (cleaned url) = true.
Proof. intros H. now apply all_scrub, all_lstrip. Qed.

Lemma lstrip_app_stop chars (a t : string) (d : ascii) :
  Str.has d chars = false ->
  Str.lstrip chars (a ++ String d t) = Str.lstrip chars a ++ String d t.
Proof.
  intros Hd. induction a as [|x a IH]; simpl; [now rewrite Hd|].
  destruct (Str.has x chars); [exact IH | reflexivity].
Qed.

Lemma lstrip_app_all chars (ws s : string) :
  Str.all (fun a => Str.has a chars) ws = true ->
  Str.lstrip chars (ws ++ s) = Str.lstrip chars s.
Proof.
  induction ws as [|x ws IH]; simpl; [reflexivity|].
  intros H. apply andb_true_iff in H as [Hx Hw]. now rewrite Hx, IH.
Qed.

Lemma cut_app c (a s : string) :
  Str.cut c (a ++ s) =
  match Str.cut c a with
  | Some (l, r) => Some (l, r ++ s)
  | None => match Str.cut c s with
            | Some (l, r) => Some (a ++ l, r)
            | None => None
            end
  end.
Proof.
  induction a as [|x a IH]; simpl.
  - now destruct (Str.cut c s) as [[l r]|].
  - destruct (Ascii.eqb x c); [reflexivity|]. rewrite IH.
    destruct (Str.cut c a) as [[l r]|]; [reflexivity|].
    now destruct (Str.cut c s) as [[l r]|].
Qed.

Lemma cut_lacks c (p r : string) :
  lacks c p = true -> Str.cut c (p ++ String c r) = Some (p, r).
Proof.
  intros H. rewrite cut_app. apply cut_none in H. rewrite H. simpl.
  now rewrite Ascii.eqb_refl, append_nil_r.
Qed.

Lemma span_app_stop stops (a t : string) :
  starts_in stops t = true ->
  Str.span stops (a ++ t)
    = (fst (Str.span stops a), snd (Str.span stops a) ++ t).
Proof.
  intros Ht. induction a as [|x a IH]; simpl.
  - destruct t as [|d t]; [reflexivity|]. simpl in *. now rewrite Ht.
  - destruct (Str.has x stops); [reflexivity|]. rewrite IH.
    now destruct (Str.span stops a).
Qed.

Lemma all_andb p q (s : string) :
  Str.all (fun a => p a && q a) s = Str.all p s && Str.all q s.
Proof.
  induction s as [|x s IH]; simpl; [reflexivity|]. rewrite IH.
  destruct (p x), (q x), (Str.all p s), (Str.all q s); reflexivity.
Qed.

Lemma free_of_lacks (s : string) :
  plain s = true ->
  Str.all (fun a => negb (Str.has a "?#")) s = true.
Proof.
  unfold plain, lacks. rewrite <- all_andb. apply all_impl.
  intros a. cbn [Str.has].
  rewrite (Ascii.eqb_sym "?" a), (Ascii.eqb_sym "#" a).
  destruct (Ascii.eqb a "?"), (Ascii.eqb a "#"); simpl; congruence.
Qed.

Lemma plain_of_free (s : string) :
  Str.all (fun a => negb (Str.has a "?#")) s = true -> plain s = true.
Proof.
  unfold plain, lacks. rewrite <- all_andb. apply all_impl.
  intros a. cbn [Str.has].
  rewrite (Ascii.eqb_sym "?" a), (Ascii.eqb_sym "#" a).
  destruct (Ascii.eqb a "?"), (Ascii.eqb a "#"); simpl; congruence.
Qed.

Lemma starts_in_query_fragment (d : ascii) (t : string) :
  starts_in "?#" (String d t) = true -> d = "?"%char \/ d = "#"%char.
Proof.
  cbn [starts_in Str.has]. rewrite orb_false_r.
  intros H. apply orb_true_iff in H as [H|H]; apply Ascii.eqb_eq in H; auto.
Qed.

Lemma take2_app (b t : string) :
  starts_in "?#" t = true ->
  (Str.take 2 (b ++ t) =? "//") = (Str.take 2 b =? "//").
Proof.
  intros Ht. destruct t as [|d t]; [now rewrite append_nil_r|].
  apply starts_in_query_fragment in Ht.
  destruct b as [|x [|y b]]; [| |reflexivity].
  - destruct Ht as [-> | ->]; now destruct t.
  - change (Str.take 2 (String x "" ++ String d t)) with (String x (String d "")).
    change (Str.take 2 (String x "")) with (String x "").
    change (String x (String d "") =? "//")
      with (Ascii.eqb x "/" && (Ascii.eqb d "/" && true)).
    change (String x "" =? "//") with (Ascii.eqb x "/" && false).
    destruct Ht as [-> | ->]; now rewrite !andb_false_r.
Qed.

Lemma take2_slashes (u : string) :
  (Str.take 2 u =? "//") = true -> u = "//" ++ Str.drop 2 u.
Proof.
  destruct u as [|x [|y u]].
  - discriminate.
  - simpl. destruct (Ascii.eqb x "/"); discriminate.
  - change (Str.take 2 (String x (String y u))) with (String x (String y "")).
    intros H. apply String.eqb_eq in H. now injection H as -> ->.
Qed.

Section StageFacts.

Variable NFKC : string -> string.
Variable ip_address : string -> result ip_kind.

Lemma urlsplit_stages (url : string) :
  urlsplit NFKC ip_address url =
  split_tail NFKC ip_address
    (fst (split_scheme (cleaned url))) (snd (split_scheme (cleaned url))).
Proof.
  unfold urlsplit, split_tail, split_scheme, cleaned, scrub.
  destruct (Str.cut ":" _) as [[[|a0 h] rest]|]; try reflexivity.
  now destruct (_ && _).
Qed.

(** The two cuts that take the fragment and the query off leave what comes
    before the first of [?] and [#]. *)
Lemma cuts_span {A} (k : string -> string -> string -> A) (u : string) :
  exists q f,
    (let '(u1, fragment) :=
       match Str.cut "#" u with
       | Some (a, f) => (a, f)
       | None => (u, "")
       end in
     let '(u2, query) :=
       match Str.cut "?" u1 with
       | Some (a, q) => (a, q)
       | None => (u1, "")
       end in
     k u2 query fragment)
    = k (fst (Str.span "?#" u)) q f.
Proof.
  assert (J : forall b t, plain b = true -> starts_in "?#" t = true ->
                          fst (Str.span "?#" (b ++ t)) = b).
  { intros b t Hb Ht. now rewrite (span_join "?#" b t (free_of_lacks b Hb) Ht). }
  destruct (Str.cut "#" u) as [[a f]|] eqn:E1.
  - apply cut_some in E1 as [-> La].
    destruct (Str.cut "?" a) as [[b q]|] eqn:E2.
    + apply cut_some in E2 as [-> Lb]. exists q, f.
      rewrite append_assoc, J; [reflexivity| |reflexivity].
      unfold plain. rewrite Lb. rewrite lacks_app in La.
      now apply andb_true_iff in La as [-> _].
    + apply cut_none in E2. exists "", f.
      rewrite J; [reflexivity| |reflexivity]. unfold plain. now rewrite E2, La.
  - apply cut_none in E1.
    destruct (Str.cut "?" u) as [[b q]|] eqn:E2.
    + apply cut_some in E2 as [-> Lb]. exists q, "".
      rewrite J; [reflexivity| |reflexivity].
      unfold plain. rewrite Lb. rewrite lacks_app in E1.
      now apply andb_true_iff in E1 as [-> _].
    + apply cut_none in E2. exists "", "".
      rewrite <- (append_nil_r u) at 2.
      rewrite J; [reflexivity| |reflexivity]. unfold plain. now rewrite E2, E1.
Qed.

Lemma split_tail_path (s u : string) :
  (Str.take 2 u =? "//") = false ->
  exists q f,
    split_tail NFKC ip_address s u
      = Ok (mkSplitResult s "" (fst (Str.span "?#" u)) q f).
Proof.
  intros H. unfold split_tail. rewrite H. cbn [bind].
  destruct (cuts_span
              (fun p q f => _checknetloc NFKC "" ;;; Ok (mkSplitResult s "" p q f))
              u) as (q & f & E).
  exists q, f. exact E.
Qed.

Lemma split_tail_authority (s w : string) :
  exists q f,
    split_tail NFKC ip_address s ("//" ++ w) =
    (bracket_check ip_address (fst (Str.span "/?#" w)) ;;;
     _checknetloc NFKC (fst (Str.span "/?#" w)) ;;;
     Ok (mkSplitResult s (fst (Str.span "/?#" w))
           (fst (Str.span "?#" (snd (Str.span "/?#" w)))) q f)).
Proof.
  unfold split_tail.
  assert (E5 : (Str.take 2 ("//" ++ w) =? "//") = true) by reflexivity.
  assert (E6 : _splitnetloc ("//" ++ w) 2 = Str.span "/?#" w) by reflexivity.
  rewrite E5, E6.
  destruct (Str.span "/?#" w) as [n r]. cbn [fst snd]. unfold bracket_check.
  destruct (_ || _); [exists "", ""; reflexivity|].
  destruct (if Str.has "[" n && Str.has "]" n then _ else _) as [[]|e];
    cbn [bind]; [|exists "", ""; reflexivity].
  destruct (cuts_span
              (fun p q f => _checknetloc NFKC n ;;; Ok (mkSplitResult s n p q f))
              r) as (q & f & E).
  exists q, f. exact E.
Qed.

(** What [validate_gateway] computes, in terms of the cleaned text once the
    scheme is off: with [//], the authority up to the first of [/?#] and
    the path up to the first of [?#]; without, the path alone. *)
Lemma validate_gateway_stages (url : string) :
  validate_gateway NFKC ip_address url =
  let u := snd (split_scheme (cleaned url)) in
  if Str.take 2 u =? "//" then
    let n := fst (Str.span "/?#" (Str.drop 2 u)) in
    let p := fst (Str.span "?#" (snd (Str.span "/?#" (Str.drop 2 u)))) in
    bracket_check ip_address n ;;;
    _checknetloc NFKC n ;;;
    if Str.truthy (n ++ p) then Ok ("https://" ++ n ++ p)
    else Raise (ValueError ("`" ++ url ++ "` is not a valid URL"))
  else
    let p := fst (Str.span "?#" u) in
    if Str.truthy p then Ok ("https://" ++ p)
    else Raise (ValueError ("`" ++ url ++ "` is not a valid URL")).
Proof.
  unfold validate_gateway. rewrite urlsplit_stages.
  destruct (split_scheme (cleaned url)) as [s u]. cbn [fst snd]. cbv zeta.
  destruct (Str.take 2 u =? "//") eqn:T.
  - rewrite (take2_slashes u T) at 1.
    destruct (split_tail_authority s (Str.drop 2 u)) as (q & f & ->).
    pose proof (span_snd_starts "/?#" (Str.drop 2 u)) as R.
    destruct (Str.span "/?#" (Str.drop 2 u)) as [n r]. cbn [fst snd] in *.
    destruct (bracket_check ip_address n) as [[]|e]; cbn [bind]; [|reflexivity].
    destruct (_checknetloc NFKC n) as [[]|e]; cbn [bind]; [|reflexivity].
    cbn [netloc path].
    assert (P : starts_in "/" (fst (Str.span "?#" r)) = true).
    { apply (rooted_prefix (fst (Str.span "?#" r)) (snd (Str.span "?#" r))).
      - now rewrite span_app.
      - apply plain_of_free, span_fst_free. }
    destruct n as [|x n]; cbn [Str.truthy orb negb append].
    + destruct (fst (Str.span "?#" r)) as [|y p] eqn:Ep; cbn [Str.truthy negb];
        [reflexivity|].
      now rewrite (urlunsplit_authority (String y p) "" ltac:(discriminate) eq_refl),
        append_nil_r.
    + now rewrite (urlunsplit_authority (String x n) _ ltac:(discriminate) P).
  - destruct (split_tail_path s u T) as (q & f & ->). cbn [bind netloc path].
    cbn [Str.truthy orb].
    destruct (fst (Str.span "?#" u)) as [|y p] eqn:Ep; cbn [Str.truthy negb];
      [reflexivity|].
    now rewrite (urlunsplit_authority (String y p) "" ltac:(discriminate) eq_refl),
      append_nil_r.
Qed.

End StageFacts.

(* ================================================================== *)
(** ** Facts about schemes *)

Lemma scheme_char_facts (a : ascii) :
  Str.has a scheme_chars = true ->
  Ascii.eqb a ":" = false /\
  Str.has a _WHATWG_C0_CONTROL_OR_SPACE = false /\
  existsb (Ascii.eqb a) _UNSAFE_URL_BYTES_TO_REMOVE = false.
Proof.
  destruct a as [[] [] [] [] [] [] [] []]; vm_compute; intros H;
    repeat split; congruence.
Qed.

Lemma query_fragment_char_facts (d : ascii) :
  d = "?"%char \/ d = "#"%char ->
  Str.has d scheme_chars = false /\
  Ascii.eqb d ":" = false /\
  Str.has d _WHATWG_C0_CONTROL_OR_SPACE = false /\
  existsb (Ascii.eqb d) _UNSAFE_URL_BYTES_TO_REMOVE = false.
Proof. intros [-> | ->]; vm_compute; auto. Qed.

Lemma is_scheme_chars (h : string) :
  is_scheme h = true -> Str.all (fun c => Str.has c scheme_chars) h = true.
Proof.
  destruct h as [|a0 h]; [discriminate|]. unfold is_scheme.
  intros H. now apply andb_true_iff in H as [_ H].
Qed.

Lemma is_scheme_lacks_colon (h : string) :
  is_scheme h = true -> lacks ":" h = true.
Proof.
  intros H. apply is_scheme_chars in H. revert H. apply all_impl.
  intros a Ha. now destruct (scheme_char_facts a Ha) as (-> & _).
Qed.

Lemma is_scheme_safe (h : string) : is_scheme h = true -> safe h = true.
Proof.
  intros H. apply is_scheme_chars in H. revert H. apply all_impl.
  intros a Ha. now destruct (scheme_char_facts a Ha) as (_ & _ & ->).
Qed.

Lemma split_scheme_of_scheme (h rest : string) :
  is_scheme h = true -> split_scheme (h ++ String ":" rest) = (Str.lower h, rest).
Proof.
  intros H. unfold split_scheme.
  rewrite (cut_lacks ":" h rest (is_scheme_lacks_colon h H)).
  destruct h as [|a0 h]; [discriminate|]. unfold is_scheme in H. now rewrite H.
Qed.

Lemma split_scheme_without (u : string) :
  has_scheme u = false -> split_scheme u = ("", u).
Proof.
  unfold has_scheme, split_scheme, is_scheme.
  destruct (Str.cut ":" u) as [[[|a0 h] rest]|]; try reflexivity.
  now intros ->.
Qed.

Lemma cleaned_of_scheme (h rest : string) :
  is_scheme h = true ->
  cleaned (h ++ String ":" rest) = h ++ String ":" (scrub rest).
Proof.
  intros H. unfold cleaned.
  assert (L : Str.lstrip _WHATWG_C0_CONTROL_OR_SPACE (h ++ String ":" rest)
              = h ++ String ":" rest).
  { pose proof (is_scheme_chars h H) as C.
    destruct h as [|a0 h]; [discriminate|].
    cbn [append Str.lstrip]. cbn [Str.all] in C.
    apply andb_true_iff in C as [C _].
    now destruct (scheme_char_facts a0 C) as (_ & -> & _). }
  rewrite L, scrub_app, (scrub_safe h (is_scheme_safe h H)).
  reflexivity.
Qed.

Lemma scrub_starts (t : string) :
  starts_in "?#" t = true -> starts_in "?#" (scrub t) = true.
Proof.
  destruct t as [|d t]; [reflexivity|]. intros H.
  pose proof (starts_in_query_fragment d t H) as D.
  change (String d t) with (String d "" ++ t). rewrite scrub_app.
  destruct D as [-> | ->]; exact H.
Qed.

Lemma cleaned_app_tail (u t : string) :
  starts_in "?#" t = true -> cleaned (u ++ t) = cleaned u ++ scrub t.
Proof.
  intros H. destruct t as [|d t].
  - now rewrite !append_nil_r.
  - pose proof (query_fragment_char_facts d (starts_in_query_fragment d t H))
      as (_ & _ & W & _).
    unfold cleaned. now rewrite (lstrip_app_stop _ u t d W), scrub_app.
Qed.

Lemma split_scheme_app_tail (a t : string) :
  starts_in "?#" t = true ->
  split_scheme (a ++ t) = (fst (split_scheme a), snd (split_scheme a) ++ t).
Proof.
  intros H. destruct t as [|d t].
  - rewrite !append_nil_r. now destruct (split_scheme a).
  - pose proof (query_fragment_char_facts d (starts_in_query_fragment d t H))
      as (S & C & _ & _).
    unfold split_scheme. rewrite cut_app.
    destruct (Str.cut ":" a) as [[[|a0 h] rest]|] eqn:E; try reflexivity.
    + now destruct (_ && _).
    + cbn [Str.cut]. rewrite C.
      destruct (Str.cut ":" t) as [[l r]|]; [|reflexivity].
      destruct (a ++ String d l) as [|a0 h] eqn:Eh; [reflexivity|].
      assert (F : Str.all (fun c => Str.has c scheme_chars) (String a0 h) = false).
      { rewrite <- Eh, all_app. cbn [Str.all]. rewrite S.
        now rewrite andb_false_r. }
      now rewrite F, andb_false_r.
Qed.

(* ================================================================== *)
(** ** Further properties of validate_gateway *)

Lemma starts_in_weaken (t : string) :
  starts_in "?#" t = true -> starts_in "/?#" t = true.
Proof.
  destruct t as [|d t]; [reflexivity|]. intros H.
  destruct (starts_in_query_fragment d t H) as [-> | ->]; reflexivity.
Qed.

Section GatewayFurther.

Variable NFKC : string -> string.
Variable ip_address : string -> result ip_kind.

(** Two texts whose rests after the scheme differ by a tail that starts a
    query or a fragment are accepted together, with the same result. *)
Lemma validate_gateway_ok_tail (url url' t r : string) :
  starts_in "?#" t = true ->
  snd (split_scheme (cleaned url'))
    = snd (split_scheme (cleaned url)) ++ t ->
  validate_gateway NFKC ip_address url = Ok r <->
  validate_gateway NFKC ip_address url' = Ok r.
Proof.
  intros Ht Hb. rewrite !validate_gateway_stages. cbv zeta. rewrite Hb.
  set (b := snd (split_scheme (cleaned url))). clearbody b.
  rewrite (take2_app b t Ht).
  destruct (Str.take 2 b =? "//") eqn:T.
  - assert (D : Str.drop 2 (b ++ t) = Str.drop 2 b ++ t).
    { rewrite (take2_slashes b T) at 1. reflexivity. }
    rewrite D, (span_app_stop "/?#" _ t (starts_in_weaken t Ht)).
    cbn [fst snd]. rewrite (span_app_stop "?#" _ t Ht). cbn [fst].
    destruct (bracket_check _ _) as [[]|e]; cbn [bind]; [|reflexivity].
    destruct (_checknetloc _ _) as [[]|e]; cbn [bind]; [|reflexivity].
    destruct (Str.truthy _); [reflexivity | split; discriminate].
  - rewrite (span_app_stop "?#" b t Ht). cbn [fst].
    destruct (Str.truthy _); [reflexivity | split; discriminate].
Qed.

(** X8: a text with no scheme and no [//] at its start, once cleaned, is
    never searched for a host: what comes before the first [?] or [#]
    becomes the authority as it is, colons and slashes included; and when
    nothing comes before, the text is refused with the message that quotes
    it as it was given. *)
Theorem validate_gateway_without_scheme (url : string) :
  has_scheme (cleaned url) = false ->
  (Str.take 2 (cleaned url) =? "//") = false ->
  validate_gateway NFKC ip_address url =
  if Str.truthy (fst (Str.span "?#" (cleaned url)))
  then Ok ("https://" ++ fst (Str.span "?#" (cleaned url)))
  else Raise (ValueError ("`" ++ url ++ "` is not a valid URL")).
Proof.
  intros H T. rewrite validate_gateway_stages, (split_scheme_without _ H).
  cbv zeta. cbn [snd]. now rewrite T.
Qed.

(** X9: when the text before the first colon can be a scheme, it is taken
    for one and dropped, a host included: with no [//] after the colon,
    the result is [https://] followed by what comes after the colon, up to
    the first [?] or [#]; so [localhost:8080] becomes [https://8080]. *)
Theorem validate_gateway_drops_text_before_colon (h rest : string) :
  is_scheme h = true ->
  (Str.take 2 (scrub rest) =? "//") = false ->
  validate_gateway NFKC ip_address (h ++ String ":" rest) =
  if Str.truthy (fst (Str.span "?#" (scrub rest)))
  then Ok ("https://" ++ fst (Str.span "?#" (scrub rest)))
  else Raise (ValueError
                ("`" ++ (h ++ String ":" rest) ++ "` is not a valid URL")).
Proof.
  intros H T.
  rewrite validate_gateway_stages, (cleaned_of_scheme h rest H),
    (split_scheme_of_scheme h (scrub rest) H).
  cbv zeta. cbn [snd]. now rewrite T.
Qed.

(** X10: the scheme of the input never matters: two texts that differ in
    their scheme only are accepted together, with the same result. *)
Theorem validate_gateway_scheme_irrelevant (s1 s2 rest r : string) :
  is_scheme s1 = true ->
  is_scheme s2 = true ->
  validate_gateway NFKC ip_address (s1 ++ String ":" rest) = Ok r <->
  validate_gateway NFKC ip_address (s2 ++ String ":" rest) = Ok r.
Proof.
  intros H1 H2. apply (validate_gateway_ok_tail _ _ ""); [reflexivity|].
  rewrite (cleaned_of_scheme s1 rest H1), (cleaned_of_scheme s2 rest H2),
    (split_scheme_of_scheme s1 _ H1), (split_scheme_of_scheme s2 _ H2).
  cbn [snd]. now rewrite append_nil_r.
Qed.

(** X11: a full URL, made of any scheme, [://], a plain ASCII host, a path
    that is empty or starts with a slash, and then nothing or a query or a
    fragment, becomes [https://] followed by the host and the path. *)
Theorem validate_gateway_full_url (s n p t : string) :
  is_scheme s = true ->
  plain_host n = true ->
  rooted_path p = true ->
  starts_in "?#" t = true ->
  validate_gateway NFKC ip_address (s ++ "://" ++ n ++ p ++ t)
    = Ok ("https://" ++ n ++ p).
Proof.
  intros Hs Hn Hp Ht.
  unfold plain_host in Hn. apply andb_true_iff in Hn as [Hn N4].
  apply andb_true_iff in Hn as [Hn N3]. apply andb_true_iff in Hn as [N1 N2].
  unfold rooted_path in Hp. apply andb_true_iff in Hp as [Hp P3].
  apply andb_true_iff in Hp as [P1 P2].
  assert (F : Str.all (fun a => negb (Str.has a "/?#")) n = true).
  { revert N2. apply all_impl. intros a. cbn [Str.has].
    destruct (Ascii.eqb "/" a), (Ascii.eqb "?" a), (Ascii.eqb "#" a);
      simpl; congruence. }
  assert (B1 : Str.has "[" n = false).
  { apply lacks_has. revert N2. apply all_impl. intros a. cbn [Str.has].
    rewrite (Ascii.eqb_sym "[" a).
    destruct (Ascii.eqb a "["); [|reflexivity].
    now rewrite !orb_true_r. }
  assert (B2 : Str.has "]" n = false).
  { apply lacks_has. revert N2. apply all_impl. intros a. cbn [Str.has].
    rewrite (Ascii.eqb_sym "]" a).
    destruct (Ascii.eqb a "]"); [|reflexivity].
    now rewrite !orb_true_r. }
  rewrite validate_gateway_stages.
  change (s ++ "://" ++ n ++ p ++ t) with (s ++ String ":" ("//" ++ n ++ p ++ t)).
  rewrite (cleaned_of_scheme s _ Hs), (split_scheme_of_scheme s _ Hs).
  cbv zeta. cbn [snd].
  assert (E : scrub ("//" ++ n ++ p ++ t) = "//" ++ n ++ p ++ scrub t).
  { change ("//" ++ n ++ p ++ t) with ("//" ++ (n ++ p ++ t)).
    now rewrite !scrub_app, (scrub_safe n N4), (scrub_safe p P3). }
  rewrite E.
  change (Str.take 2 ("//" ++ n ++ p ++ scrub t) =? "//") with true.
  change (Str.drop 2 ("//" ++ n ++ p ++ scrub t)) with (n ++ p ++ scrub t).
  pose proof (scrub_starts t Ht) as Ht'.
  rewrite (span_join "/?#" n (p ++ scrub t) F).
  2:{ destruct p as [|x p]; [now apply starts_in_weaken|].
      cbn [starts_in Str.has append] in *. rewrite orb_false_r in P1.
      now rewrite P1. }
  cbn [fst snd].
  rewrite (span_join "?#" p (scrub t) (free_of_lacks p P2) Ht'). cbn [fst].
  unfold bracket_check, _checknetloc. rewrite B1, B2, N3, orb_true_r.
  cbn [andb orb bind].
  destruct n as [|x n]; [discriminate|]. reflexivity.
Qed.

(** X12: what follows the first [?] or [#] never matters: adding a query or
    a fragment at the end of a text changes neither whether it is accepted
    nor the result. *)
Theorem validate_gateway_ignores_query_and_fragment (u t r : string) :
  starts_in "?#" t = true ->
  validate_gateway NFKC ip_address u = Ok r <->
  validate_gateway NFKC ip_address (u ++ t) = Ok r.
Proof.
  intros Ht. apply (validate_gateway_ok_tail _ _ (scrub t)).
  - now apply scrub_starts.
  - rewrite (cleaned_app_tail u t Ht).
    now rewrite (split_scheme_app_tail _ _ (scrub_starts t Ht)).
Qed.

Lemma validate_gateway_ok_cleaned (url url' r : string) :
  cleaned url = cleaned url' ->
  validate_gateway NFKC ip_address url = Ok r <->
  validate_gateway NFKC ip_address url' = Ok r.
Proof.
  intros H. apply (validate_gateway_ok_tail _ _ ""); [reflexivity|].
  now rewrite H, append_nil_r.
Qed.

Lemma cleaned_skips_unsafe (a b : string) (x : ascii) :
  In x _UNSAFE_URL_BYTES_TO_REMOVE ->
  cleaned (a ++ String x b) = cleaned (a ++ b).
Proof.
  intros Hx.
  assert (W : Str.has x _WHATWG_C0_CONTROL_OR_SPACE = true)
    by (destruct Hx as [<-|[<-|[<-|[]]]]; reflexivity).
  assert (R : scrub (String x "") = "")
    by (destruct Hx as [<-|[<-|[<-|[]]]]; reflexivity).
  unfold cleaned. induction a as [|y a IH].
  - cbn [append Str.lstrip]. now rewrite W.
  - cbn [append Str.lstrip].
    destruct (Str.has y _WHATWG_C0_CONTROL_OR_SPACE); [exact IH|].
    change (String y (a ++ String x b))
      with ((String y "" ++ a) ++ String x "" ++ b).
    change (String y (a ++ b)) with ((String y "" ++ a) ++ b).
    now rewrite !scrub_app, R.
Qed.

(** X13: a tab, a carriage return or a line feed anywhere in the text is
    ignored: with or without it the text is accepted alike, with the same
    result. *)
Theorem validate_gateway_ignores_tab_cr_lf (a b r : string) (x : ascii) :
  In x _UNSAFE_URL_BYTES_TO_REMOVE ->
  validate_gateway NFKC ip_address (a ++ String x b) = Ok r <->
  validate_gateway NFKC ip_address (a ++ b) = Ok r.
Proof.
  intros Hx. apply validate_gateway_ok_cleaned. now apply cleaned_skips_unsafe.
Qed.

(** X14: spaces and control characters at the start of the text are
    ignored: with or without them the text is accepted alike, with the same
    result. *)
Theorem validate_gateway_ignores_leading_space (ws url r : string) :
  Str.all (fun a => Str.has a _WHATWG_C0_CONTROL_OR_SPACE) ws = true ->
  validate_gateway NFKC ip_address (ws ++ url) = Ok r <->
  validate_gateway NFKC ip_address url = Ok r.
Proof.
  intros H. apply validate_gateway_ok_cleaned. unfold cleaned.
  now rewrite (lstrip_app_all _ ws url H).
Qed.

(** X15: what [validate_gateway] returns holds no tab, no carriage return
    and no line feed. *)
Theorem validate_gateway_result_safe (url r : string) :
  validate_gateway NFKC ip_address url = Ok r -> safe r = true.
Proof.
  intros H. destruct (validate_gateway_shape _ _ _ _ H) as (q & -> & _ & Sq & _).
  unfold safe in *. now rewrite all_app, Sq.
Qed.

(** X16: the path-as-host branch does not split the path, yet the URL it
    returns reads back split at the first slash: when the result parses,
    its network location is the path up to its first [/] and its path is
    the rest. *)
Theorem validate_gateway_path_as_host_reads_back
    (url : string) (c c' : SplitResult) :
  urlsplit NFKC ip_address url = Ok c ->
  netloc c = "" ->
  path c <> "" ->
  urlsplit NFKC ip_address ("https://" ++ path c) = Ok c' ->
  validate_gateway NFKC ip_address url = Ok ("https://" ++ path c) /\
  netloc c' = fst (Str.span "/" (path c)) /\
  path c' = snd (Str.span "/" (path c)) /\
  netloc c' ++ path c' = path c.
Proof.
  intros E Hn Hp E'.
  destruct (urlsplit_well_split _ _ _ _ E) as [_ W2 _ W4 _ _ _].
  split.
  { rewrite (validate_gateway_ok _ _ _ _ E), Hn.
    pose proof (proj2 (truthy_true _) Hp) as T. cbn [Str.truthy orb].
    rewrite T. cbn [negb].
    now rewrite (urlunsplit_authority _ "" Hp eq_refl), append_nil_r. }
  rewrite (urlsplit_https _ _ _ W4 W2) in E'.
  destruct (bracket_check _ _) as [[]|e]; cbn [bind] in E'; [|discriminate].
  destruct (_checknetloc _ _) as [[]|e]; cbn [bind] in E'; [|discriminate].
  injection E' as <-. cbn [netloc path].
  assert (S : Str.span "/?#" (path c) = Str.span "/" (path c)).
  { pose proof (free_of_lacks _ W2) as F. clear -F.
    induction (path c) as [|x p IH]; [reflexivity|].
    cbn [Str.all] in F. apply andb_true_iff in F as [Fx F].
    cbn [Str.span]. rewrite (IH F).
    assert (K : Str.has x "/?#" = Str.has x "/").
    { cbn [Str.has] in Fx |- *. apply negb_true_iff in Fx. now rewrite Fx. }
    now rewrite K. }
  rewrite S. repeat split. apply span_app.
Qed.

(** X17: when [//] follows the scheme, or starts a text without one, the
    network location is what comes next, up to the first of [/], [?] and
    [#], and the path what follows, up to the first of [?] and [#].  The
    parser's checks on the network location come first and their error
    comes through; then the result is [https://] followed by the network
    location and the path, unless both are empty, which is refused with the
    message that quotes the text as it was given. *)
Theorem validate_gateway_with_authority (url : string) :
  (Str.take 2 (snd (split_scheme (cleaned url))) =? "//") = true ->
  validate_gateway NFKC ip_address url =
  (let w := Str.drop 2 (snd (split_scheme (cleaned url))) in
   let n := fst (Str.span "/?#" w) in
   let p := fst (Str.span "?#" (snd (Str.span "/?#" w))) in
   bracket_check ip_address n ;;;
   _checknetloc NFKC n ;;;
   if Str.truthy (n ++ p) then Ok ("https://" ++ n ++ p)
   else Raise (ValueError ("`" ++ url ++ "` is not a valid URL"))).
Proof.
  intros T. rewrite validate_gateway_stages. cbv zeta. now rewrite T.
Qed.

End GatewayFurther.

(* ================================================================== *)
(** ** The further properties at concrete inputs *)

(** X8 at an address with a port, a path and a query. *)
Lemma validate_gateway_without_scheme_witness :
  has_scheme (cleaned "10.0.0.1:8080/extra?x=1") = false /\
  validate_gateway nfkc_id no_ip_address "10.0.0.1:8080/extra?x=1"
    = Ok "https://10.0.0.1:8080/extra".
Proof.
  split; [reflexivity|].
  exact (validate_gateway_without_scheme nfkc_id no_ip_address
           "10.0.0.1:8080/extra?x=1" eq_refl eq_refl).
Defined.

(** X9 at a host name with a port. *)
Lemma validate_gateway_drops_text_before_colon_witness :
  is_scheme "localhost" = true /\
  validate_gateway nfkc_id no_ip_address "localhost:8080" = Ok "https://8080".
Proof.
  split; [reflexivity|].
  exact (validate_gateway_drops_text_before_colon nfkc_id no_ip_address
           "localhost" "8080" eq_refl eq_refl).
Defined.

(** X10 at the schemes [http] and [ftp]. *)
Lemma validate_gateway_scheme_irrelevant_witness :
  validate_gateway nfkc_id no_ip_address "ftp://host.example.com/path"
    = Ok "https://host.example.com/path".
Proof.
  apply (proj1 (validate_gateway_scheme_irrelevant nfkc_id no_ip_address
                  "http" "ftp" "//host.example.com/path"
                  "https://host.example.com/path" eq_refl eq_refl)).
  reflexivity.
Defined.

(** X11 at a websocket URL with a port, a query and a fragment. *)
Lemma validate_gateway_full_url_witness :
  validate_gateway nfkc_id no_ip_address
    "wss://gateway.example.com:8443/v1?token=abc#top"
    = Ok "https://gateway.example.com:8443/v1".
Proof.
  exact (validate_gateway_full_url nfkc_id no_ip_address
           "wss" "gateway.example.com:8443" "/v1" "?token=abc#top"
           eq_refl eq_refl eq_refl eq_refl).
Defined.

(** X12 at a host and path with a query added. *)
Lemma validate_gateway_ignores_query_and_fragment_witness :
  validate_gateway nfkc_id no_ip_address "host.example.com/path?a=1"
    = Ok "https://host.example.com/path".
Proof.
  apply (proj1 (validate_gateway_ignores_query_and_fragment
                  nfkc_id no_ip_address "host.example.com/path" "?a=1"
                  "https://host.example.com/path" eq_refl)).
  reflexivity.
Defined.

(** X13 at a URL broken by a line feed. *)
Lemma validate_gateway_ignores_tab_cr_lf_witness :
  validate_gateway nfkc_id no_ip_address
    ("http://host.exam" ++ String (ascii_of_nat 10) "ple.com/path")
    = Ok "https://host.example.com/path".
Proof.
  apply (proj2 (validate_gateway_ignores_tab_cr_lf nfkc_id no_ip_address
                  "http://host.exam" "ple.com/path"
                  "https://host.example.com/path" (ascii_of_nat 10)
                  (or_intror (or_intror (or_introl eq_refl))))).
  reflexivity.
Defined.

(** X14 at a URL after two spaces. *)
Lemma validate_gateway_ignores_leading_space_witness :
  validate_gateway nfkc_id no_ip_address "  http://host.example.com/path"
    = Ok "https://host.example.com/path".
Proof.
  apply (proj2 (validate_gateway_ignores_leading_space nfkc_id no_ip_address
                  "  " "http://host.example.com/path"
                  "https://host.example.com/path" eq_refl)).
  reflexivity.
Defined.

(** X15 at a text with a tab in it. *)
Lemma validate_gateway_result_safe_witness :
  safe "https://host.example.com" = true.
Proof.
  apply (validate_gateway_result_safe nfkc_id no_ip_address
           ("host." ++ String (ascii_of_nat 9) "example.com")).
  reflexivity.
Defined.

(** X16 at a host and path given without a scheme. *)
Lemma validate_gateway_path_as_host_reads_back_witness :
  validate_gateway nfkc_id no_ip_address "host.example.com/path"
    = Ok "https://host.example.com/path" /\
  "host.example.com" = fst (Str.span "/" "host.example.com/path") /\
  "/path" = snd (Str.span "/" "host.example.com/path") /\
  "host.example.com" ++ "/path" = "host.example.com/path".
Proof.
  exact (validate_gateway_path_as_host_reads_back nfkc_id no_ip_address
           "host.example.com/path"
           (mkSplitResult "" "" "host.example.com/path" "" "")
           (mkSplitResult "https" "host.example.com" "/path" "" "")
           eq_refl eq_refl ltac:(discriminate) eq_refl).
Defined.

(** X17 at a scheme followed by [//] and nothing, which is refused. *)
Lemma validate_gateway_with_authority_witness :
  validate_gateway nfkc_id no_ip_address "http://?x=1"
    = Raise (ValueError "`http://?x=1` is not a valid URL").
Proof.
  exact (validate_gateway_with_authority nfkc_id no_ip_address
           "http://?x=1" eq_refl).
Defined.
